(** * The chart-analysis endpoint: a shallow embedding of [handler]

    The repository holds three versions of one serverless HTTP handler
    ([api/analyze-chart.js]).  Each receives a multipart upload, sends the
    image and a prompt to a generative model and relays the model's verdict.

    The embedding follows the JavaScript text:
    - the platform ([process.env], formidable, [fs.readFile], the model
      client) is a [world] of outcomes, every call of it is recorded in a
      trace of [event]s;
    - [throw]/[try]/[catch] is an error monad over that trace;
    - [JSON.parse] and [String.prototype.match] are executable functions on
      [string]. *)

From Stdlib Require Import String Ascii List Bool Arith NArith Lia.
Import ListNotations.
Set Warnings "-register-all".
Open Scope list_scope.
Open Scope string_scope.

(** ** Characters and strings *)

Definition LF : ascii := "010"%char.
Definition CR : ascii := "013"%char.
Definition TAB : ascii := "009"%char.
Definition DQUOTE : ascii := "034"%char.
Definition BACKSLASH : ascii := "092"%char.

Definition str1 (c : ascii) : string := String c EmptyString.
Definition dq : string := str1 DQUOTE.
Definition nl : string := str1 LF.

(** [s.slice(n)] *)
Fixpoint drop (n : nat) (s : string) : string :=
  match n, s with
  | O, _ => s
  | S _, EmptyString => EmptyString
  | S k, String _ r => drop k r
  end.

(** [s.startsWith(p)] *)
Definition startsWith (s p : string) : bool := String.prefix p s.

(** [s.includes(p)] *)
Fixpoint includes (s p : string) : bool :=
  if String.prefix p s then true
  else match s with
       | EmptyString => false
       | String _ r => includes r p
       end.

(** Truthiness of a JavaScript string: only the empty string is falsy. *)
Definition nonempty (s : string) : bool :=
  match s with EmptyString => false | String _ _ => true end.

(** Truthiness of a value that is a string or [undefined]. *)
Definition truthy (v : option string) : bool :=
  match v with Some s => nonempty s | None => false end.

(** ** JavaScript values that cross the endpoint's boundary

    Numbers keep their lexeme (no floating point is needed here); an object
    keeps its members in source order. *)
Inductive json : Type :=
| JNull : json
| JBool : bool -> json
| JNum : string -> json
| JStr : string -> json
| JArr : list json -> json
| JObj : list (string * json) -> json.

(** Property read [o.k]; [None] is [undefined].  A later member of the same
    name wins, as in JavaScript. *)
Fixpoint assoc_last {A} (k : string) (l : list (string * A)) : option A :=
  match l with
  | [] => None
  | (k', v) :: r =>
      match assoc_last k r with
      | Some v' => Some v'
      | None => if String.eqb k k' then Some v else None
      end
  end.

Definition get_field (k : string) (v : json) : option json :=
  match v with
  | JObj ms => assoc_last k ms
  | _ => None
  end.

(** ** [JSON.parse]

    The builtin, after ECMA-404: a lexer from characters to tokens, then a
    parser from tokens to a value.  [None] stands for the thrown
    [SyntaxError]. *)
Module JSON.

Inductive token : Type :=
| TLBrace | TRBrace | TLBrack | TRBrack | TColon | TComma
| TStr (s : string)
| TNum (lexeme : string)
| TTrue | TFalse | TNull.

Definition is_ws (c : ascii) : bool :=
  Ascii.eqb c " " || Ascii.eqb c TAB || Ascii.eqb c LF || Ascii.eqb c CR.

Definition is_digit (c : ascii) : bool :=
  let n := nat_of_ascii c in ((48 <=? n) && (n <=? 57))%nat.

Definition is_control (c : ascii) : bool := (nat_of_ascii c <? 32)%nat.

Definition hex_val (c : ascii) : option nat :=
  let n := nat_of_ascii c in
  if ((48 <=? n) && (n <=? 57))%nat then Some (n - 48)
  else if ((65 <=? n) && (n <=? 70))%nat then Some (n - 55)
  else if ((97 <=? n) && (n <=? 102))%nat then Some (n - 87)
  else None.

(** The UTF-8 bytes of one UTF-16 code unit (strings are kept as bytes). *)
Definition utf8 (n : nat) : string :=
  if (n <? 128)%nat then str1 (ascii_of_nat n)
  else if (n <? 2048)%nat then
    String (ascii_of_nat (192 + n / 64)) (str1 (ascii_of_nat (128 + n mod 64)))
  else
    String (ascii_of_nat (224 + n / 4096))
      (String (ascii_of_nat (128 + (n / 64) mod 64))
         (str1 (ascii_of_nat (128 + n mod 64)))).

Definition simple_escape (c : ascii) : option ascii :=
  if Ascii.eqb c DQUOTE then Some DQUOTE
  else if Ascii.eqb c BACKSLASH then Some BACKSLASH
  else if Ascii.eqb c "/" then Some "/"%char
  else if Ascii.eqb c "b" then Some "008"%char
  else if Ascii.eqb c "f" then Some "012"%char
  else if Ascii.eqb c "n" then Some LF
  else if Ascii.eqb c "r" then Some CR
  else if Ascii.eqb c "t" then Some TAB
  else None.

Definition cons_str (p : string) (r : option (string * string))
  : option (string * string) :=
  match r with
  | Some (body, rest) => Some (p ++ body, rest)
  | None => None
  end.

(** The characters of a string literal after its opening quote: the decoded
    text and what follows the closing quote. *)
Fixpoint lex_string (s : string) : option (string * string) :=
  match s with
  | EmptyString => None
  | String c r =>
      if Ascii.eqb c DQUOTE then Some (EmptyString, r)
      else if Ascii.eqb c BACKSLASH then
        match r with
        | EmptyString => None
        | String e r1 =>
            if Ascii.eqb e "u" then
              match r1 with
              | String h1 (String h2 (String h3 (String h4 r2))) =>
                  match hex_val h1, hex_val h2, hex_val h3, hex_val h4 with
                  | Some a, Some b, Some c', Some d =>
                      cons_str (utf8 (((a * 16 + b) * 16 + c') * 16 + d))
                        (lex_string r2)
                  | _, _, _, _ => None
                  end
              | _ => None
              end
            else
              match simple_escape e with
              | Some x => cons_str (str1 x) (lex_string r1)
              | None => None
              end
        end
      else if is_control c then None
      else cons_str (str1 c) (lex_string r)
  end.

(** The longest prefix of digits, and the rest. *)
Fixpoint span_digits (s : string) : string * string :=
  match s with
  | EmptyString => (EmptyString, EmptyString)
  | String c r =>
      if is_digit c then
        let '(ds, rest) := span_digits r in (String c ds, rest)
      else (EmptyString, s)
  end.

Definition lex_sign (s : string) : string * string :=
  match s with
  | String c r => if Ascii.eqb c "-" then (str1 c, r) else (EmptyString, s)
  | EmptyString => (EmptyString, s)
  end.

(** [0] or a digit sequence without a leading zero. *)
Definition lex_int (s : string) : option (string * string) :=
  match s with
  | String c r =>
      if Ascii.eqb c "0" then Some (str1 c, r)
      else if is_digit c then Some (span_digits s)
      else None
  | EmptyString => None
  end.

Definition lex_frac (s : string) : option (string * string) :=
  match s with
  | String c r =>
      if Ascii.eqb c "." then
        match span_digits r with
        | (EmptyString, _) => None
        | (ds, rest) => Some (String c ds, rest)
        end
      else Some (EmptyString, s)
  | EmptyString => Some (EmptyString, s)
  end.

Definition lex_exp (s : string) : option (string * string) :=
  match s with
  | String c r =>
      if Ascii.eqb c "e" || Ascii.eqb c "E" then
        let '(sg, r1) :=
          match r with
          | String g r' =>
              if Ascii.eqb g "+" || Ascii.eqb g "-" then (str1 g, r')
              else (EmptyString, r)
          | EmptyString => (EmptyString, r)
          end in
        match span_digits r1 with
        | (EmptyString, _) => None
        | (ds, rest) => Some (String c (sg ++ ds), rest)
        end
      else Some (EmptyString, s)
  | EmptyString => Some (EmptyString, s)
  end.

Definition lex_number (s : string) : option (string * string) :=
  let '(sg, r0) := lex_sign s in
  match lex_int r0 with
  | None => None
  | Some (i, r1) =>
      match lex_frac r1 with
      | None => None
      | Some (f, r2) =>
          match lex_exp r2 with
          | None => None
          | Some (e, r3) => Some (sg ++ i ++ f ++ e, r3)
          end
      end
  end.

Definition cons_tok (t : token) (r : option (list token))
  : option (list token) :=
  match r with
  | Some ts => Some (t :: ts)
  | None => None
  end.

Fixpoint tokenize (fuel : nat) (s : string) : option (list token) :=
  match fuel with
  | O => None
  | S fuel' =>
      match s with
      | EmptyString => Some []
      | String c r =>
          if is_ws c then tokenize fuel' r
          else if Ascii.eqb c "{" then cons_tok TLBrace (tokenize fuel' r)
          else if Ascii.eqb c "}" then cons_tok TRBrace (tokenize fuel' r)
          else if Ascii.eqb c "[" then cons_tok TLBrack (tokenize fuel' r)
          else if Ascii.eqb c "]" then cons_tok TRBrack (tokenize fuel' r)
          else if Ascii.eqb c ":" then cons_tok TColon (tokenize fuel' r)
          else if Ascii.eqb c "," then cons_tok TComma (tokenize fuel' r)
          else if Ascii.eqb c DQUOTE then
            match lex_string r with
            | Some (str, rest) => cons_tok (TStr str) (tokenize fuel' rest)
            | None => None
            end
          else if Ascii.eqb c "-" || is_digit c then
            match lex_number s with
            | Some (lx, rest) => cons_tok (TNum lx) (tokenize fuel' rest)
            | None => None
            end
          else if String.prefix "true" s then
            cons_tok TTrue (tokenize fuel' (drop 4 s))
          else if String.prefix "false" s then
            cons_tok TFalse (tokenize fuel' (drop 5 s))
          else if String.prefix "null" s then
            cons_tok TNull (tokenize fuel' (drop 4 s))
          else None
      end
  end.

Fixpoint parse_value (fuel : nat) (ts : list token)
  : option (json * list token) :=
  match fuel with
  | O => None
  | S fuel' =>
      match ts with
      | TNull :: r => Some (JNull, r)
      | TTrue :: r => Some (JBool true, r)
      | TFalse :: r => Some (JBool false, r)
      | TNum n :: r => Some (JNum n, r)
      | TStr s :: r => Some (JStr s, r)
      | TLBrack :: TRBrack :: r => Some (JArr [], r)
      | TLBrack :: r =>
          match parse_value fuel' r with
          | Some (v, r') => parse_elements fuel' [v] r'
          | None => None
          end
      | TLBrace :: TRBrace :: r => Some (JObj [], r)
      | TLBrace :: TStr k :: TColon :: r =>
          match parse_value fuel' r with
          | Some (v, r') => parse_members fuel' [(k, v)] r'
          | None => None
          end
      | _ => None
      end
  end
with parse_elements (fuel : nat) (acc : list json) (ts : list token)
  : option (json * list token) :=
  match fuel with
  | O => None
  | S fuel' =>
      match ts with
      | TRBrack :: r => Some (JArr (rev acc), r)
      | TComma :: r =>
          match parse_value fuel' r with
          | Some (v, r') => parse_elements fuel' (v :: acc) r'
          | None => None
          end
      | _ => None
      end
  end
with parse_members (fuel : nat) (acc : list (string * json)) (ts : list token)
  : option (json * list token) :=
  match fuel with
  | O => None
  | S fuel' =>
      match ts with
      | TRBrace :: r => Some (JObj (rev acc), r)
      | TComma :: TStr k :: TColon :: r =>
          match parse_value fuel' r with
          | Some (v, r') => parse_members fuel' ((k, v) :: acc) r'
          | None => None
          end
      | _ => None
      end
  end.

(** [JSON.parse(text)]: one value, surrounded by white space only. *)
Definition parse (text : string) : option json :=
  match tokenize (S (String.length text)) text with
  | None => None
  | Some ts =>
      match parse_value (S (List.length ts)) ts with
      | Some (v, []) => Some v
      | _ => None
      end
  end.

End JSON.

(** Test texts are written with ['] for the double quote. *)
Fixpoint q (s : string) : string :=
  match s with
  | EmptyString => EmptyString
  | String c r => String (if Ascii.eqb c "'" then DQUOTE else c) (q r)
  end.


(** ** The fence pattern of the two earlier versions

    [text.match(/```json\n([\s\S]*?)\n```/)].  The matcher is the
    backtracking one of the language: start positions are tried from the
    left; at a position the literal opener must match, then the lazy star
    takes as few characters as possible before the literal closer.  The
    result is capture group 1, [None] is [null].  The pattern's literals
    are ASCII, so matching bytes and matching code units agree. *)
Definition fence_open : string := "```json" ++ nl.
Definition fence_close : string := nl ++ "```".

(** [([\s\S]*?)\n```] at the head of [s]. *)
Fixpoint lazy_until_close (s : string) : option string :=
  if String.prefix fence_close s then Some EmptyString
  else match s with
       | EmptyString => None
       | String c r =>
           match lazy_until_close r with
           | Some g => Some (String c g)
           | None => None
           end
       end.

(** The whole pattern anchored at the head of [s]. *)
Definition match_here (s : string) : option string :=
  if String.prefix fence_open s
  then lazy_until_close (drop (String.length fence_open) s)
  else None.

Fixpoint match_json_fence (s : string) : option string :=
  match match_here s with
  | Some g => Some g
  | None =>
      match s with
      | EmptyString => None
      | String _ r => match_json_fence r
      end
  end.

(** ** The platform *)

Record js_error : Type := mkError { message : string }.

Inductive result (A : Type) : Type :=
| Returns (a : A)
| Throws (e : js_error).
Arguments Returns {A} a.
Arguments Throws {A} e.

(** A property that holds a string, [null] or [undefined]. *)
Inductive js_string : Type :=
| Undefined
| Null
| Str (s : string).

(** formidable's file object, the two properties the handler reads. *)
Record File : Type := mkFile { filepath : string; mimetype : js_string }.

Definition Fields : Type := list (string * list string).
Definition Files : Type := list (string * list File).

Record Request : Type := mkRequest {
  method : string;
  headers : list (string * string);
  body : string
}.

Record Response : Type := mkResponse { status : nat; payload : json }.

(** [fileBuffer.toString('base64')], kept as the bytes it encodes. *)
Inductive base64 : Type := Base64 (bytes : string).

Inductive Part : Type :=
| InlineData (data : base64) (mimeType : js_string)
| Text (text : string).

Record GenerateRequest : Type := mkGenerate {
  contents : list Part;                 (* one content, role "user" *)
  responseMimeType : option string      (* generationConfig, when given *)
}.

(** What the surroundings answer.  [busboy] is the draft's
    [require('busboy')] and [busboy({ headers })]; [form_parse] is
    [form.parse(request)] (in the draft with its [require]); [readFile] is
    [fs.readFile(path)]; [generateContent] gives, when the awaited call
    itself succeeds, the outcome of [result.response.text()];
    [SyntaxError] is the error the engine throws for a text that
    [JSON.parse] rejects. *)
Record world : Type := mkWorld {
  GEMINI_API_KEY : option string;
  busboy : Request -> result unit;
  form_parse : Request -> result (Fields * Files);
  readFile : string -> result string;
  generateContent : string -> GenerateRequest -> result (result string);
  SyntaxError : string -> js_error
}.

Inductive event : Type :=
| EvBusboy
| EvFormParse
| EvReadFile (path : string)
| EvGenerateContent (model : string) (req : GenerateRequest)
| EvConsoleLog (label text : string)
| EvConsoleError (label : string) (error : js_error).

Definition trace : Type := list event.

(** ** Exceptions over a trace *)

Definition M (A : Type) : Type := trace -> result A * trace.

Definition ret {A} (a : A) : M A := fun tr => (Returns a, tr).

Definition throw {A} (e : js_error) : M A := fun tr => (Throws e, tr).

Definition bind {A B} (m : M A) (k : A -> M B) : M B :=
  fun tr =>
    match m tr with
    | (Returns a, tr') => k a tr'
    | (Throws e, tr') => (Throws e, tr')
    end.

Definition try_catch {A} (m : M A) (h : js_error -> M A) : M A :=
  fun tr =>
    match m tr with
    | (Returns a, tr') => (Returns a, tr')
    | (Throws e, tr') => h e tr'
    end.

(** An outside call: it is recorded, then it returns or throws. *)
Definition call {A} (ev : event) (r : result A) : M A :=
  fun tr => (r, tr ++ [ev])%list.

Definition lift {A} (r : result A) : M A := fun tr => (r, tr).

Notation "x <- m ;; k" := (bind m (fun x => k))
  (at level 61, m at next level, right associativity).
Notation "m ;;; k" := (bind m (fun _ => k))
  (at level 61, right associativity).

Definition run {A} (m : M A) : result A * trace := m [].

Definition console_log (label text : string) : M unit :=
  call (EvConsoleLog label text) (Returns tt).

Definition console_error (label : string) (error : js_error) : M unit :=
  call (EvConsoleError label error) (Returns tt).

(** [response.status(code).json(value)] *)
Definition status_json (code : nat) (value : json) : Response :=
  {| status := code; payload := value |}.

Definition message_body (m : string) : json := JObj [("message", JStr m)].
Definition analysis_body (a : json) : json := JObj [("analysis", a)].

(** [JSON.parse(text)] inside a [try]. *)
Definition JSON_parse (w : world) (text : string) : M json :=
  match JSON.parse text with
  | Some v => ret v
  | None => throw (SyntaxError w text)
  end.

(** [v.startsWith(p)]; the member access throws on [null] and
    [undefined] (the message is the one of V8). *)
Definition call_startsWith (v : js_string) (p : string) : M bool :=
  match v with
  | Str s => ret (startsWith s p)
  | Null =>
      throw (mkError "Cannot read properties of null (reading 'startsWith')")
  | Undefined =>
      throw (mkError
               "Cannot read properties of undefined (reading 'startsWith')")
  end.

(** [fields.name ? fields.name[0] : dflt]; an array is truthy even when
    empty, and its missing element is [undefined] ([None]). *)
Definition field_or (fields : Fields) (name dflt : string) : option string :=
  match assoc_last name fields with
  | Some arr => hd_error arr
  | None => Some dflt
  end.

(** A string-or-undefined inside a template literal. *)
Definition show (v : option string) : string :=
  match v with Some s => s | None => "undefined" end.

(** [v === s] *)
Definition is_str (v : option string) (s : string) : bool :=
  match v with Some x => String.eqb x s | None => false end.

(** [request.headers['accept-language'] &&
     request.headers['accept-language'].includes('id')] *)
Definition accepts_id (request : Request) : bool :=
  match assoc_last "accept-language" (headers request) with
  | Some h => nonempty h && includes h "id"
  | None => false
  end.

Definition fileToGenerativePart (fileBuffer : string) (mimeType : js_string)
  : Part :=
  InlineData (Base64 fileBuffer) mimeType.

(** ** [src/api/analyze-chart.js]: the technical-analysis handler *)
Module Technical.

Definition model : string := "gemini-1.5-pro".

Definition detailedPrompt (assetType timeframe additionalNotes : option string)
    (languagePrompt : string) : string :=
    EmptyString ++ nl ++
    "      **ROLE & GOAL:** You are a Senior Financial Market Analyst AI. Your goal is to perform a comprehensive market analysis of the provided chart image and output a structured, actionable conclusion in JSON format." ++ nl ++
    EmptyString ++ nl ++
    "      **MARKET DATA:**" ++ nl ++
    "      * **Asset:** " ++ show assetType ++ nl ++
    "      * **Timeframe:** " ++ show timeframe ++ nl ++
    "      * **User's Additional Context (News, Geopolitics, etc.):** " ++ dq ++ show additionalNotes ++ dq ++ nl ++
    EmptyString ++ nl ++
    "      **ANALYSIS INSTRUCTIONS (Perform these steps internally before concluding):**" ++ nl ++
    "      1.  **Market Character:** Briefly consider the typical volatility and drivers for " ++ show assetType ++ "." ++ nl ++
    "      2.  **Comprehensive Technical Analysis:**" ++ nl ++
    "          * **Market Structure & Trend:** Identify the primary trend (Uptrend, Downtrend, Sideways) by analyzing swing highs and lows." ++ nl ++
    "          * **Key Levels:** Pinpoint the most critical Support and Resistance levels. Identify any clear Supply/Demand zones or Fair Value Gaps (FVG)." ++ nl ++
    "          * **Chart Patterns:** Look for major chart patterns (e.g., Head and Shoulders, Triangles, Double Tops/Bottoms)." ++ nl ++
    "          * **Candlestick Patterns:** Identify influential recent candlestick patterns (e.g., Engulfing, Hammer, Doji) near key levels." ++ nl ++
    "      3.  **Fundamental/Contextual Analysis:** Integrate the user's additional context. How does this news or geopolitical situation likely impact the sentiment for this asset?" ++ nl ++
    "      4.  **Synthesis:** Combine technical and fundamental findings. Are they in confluence or divergence? Formulate the most probable market direction. Identify a potential safe price for execution based on your analysis." ++ nl ++
    EmptyString ++ nl ++
    "      **OUTPUT REQUIREMENT:**" ++ nl ++
    "      After performing the full analysis, you MUST format your final conclusion into a single, clean JSON object. Do not include any text or markdown before or after the JSON object." ++ nl ++
    EmptyString ++ nl ++
    "      **JSON STRUCTURE:**" ++ nl ++
    "      {" ++ nl ++
    "        " ++ dq ++ "direction" ++ dq ++ ": " ++ dq ++ "Provide one word: 'Bullish', 'Bearish', or 'Sideways/Neutral'." ++ dq ++ "," ++ nl ++
    "        " ++ dq ++ "rationale" ++ dq ++ ": " ++ dq ++ "Provide a concise but comprehensive rationale for your direction. Mention the strongest technical and fundamental factors from your analysis (e.g., 'A bearish engulfing candle at a major resistance level, combined with negative inflation data, suggests a high probability of a downward move.'). Also, mention a potential safe price for execution." ++ dq ++ "," ++ nl ++
    "        " ++ dq ++ "support" ++ dq ++ ": " ++ dq ++ "State the most immediate and significant support level as a price or price range." ++ dq ++ "," ++ nl ++
    "        " ++ dq ++ "resistance" ++ dq ++ ": " ++ dq ++ "State the most immediate and significant resistance level as a price or price range." ++ dq ++ "," ++ nl ++
    "        " ++ dq ++ "riskWarning" ++ dq ++ ": " ++ dq ++ "Provide a standard risk warning about market volatility and the nature of analysis as non-financial advice." ++ dq ++ nl ++
    "      }" ++ nl ++
    EmptyString ++ nl ++
    "      " ++ languagePrompt ++ nl ++
    "    ".

(** The record of the inner [catch]. *)
Definition fallback (outputLanguage : option string)
    (geminiResponseText : string) : json :=
  let fallbackMessage :=
    if is_str outputLanguage "id"
    then "Gagal mem-parse analisis dari AI. Respon mentah: "
    else "Failed to parse analysis from AI. Raw response: " in
  let fallbackRiskWarning :=
    if is_str outputLanguage "id"
    then "Selalu berhati-hati. Analisis AI hanya untuk tujuan informasi."
    else "Always exercise caution. AI analysis is for informational purposes only." in
  JObj [ ("direction",
          JStr (if is_str outputLanguage "id" then "Tidak Pasti"
                else "Uncertain"));
         ("rationale", JStr (fallbackMessage ++ geminiResponseText));
         ("support", JStr "N/A");
         ("resistance", JStr "N/A");
         ("riskWarning", JStr fallbackRiskWarning) ].

(** The message of the outer [catch]. *)
Definition errorMessage (request : Request) (error : js_error) : string :=
  if accepts_id request
  then "Gagal menganalisis grafik. Detail kesalahan: " ++ message error
  else "Failed to analyze chart. Error details: " ++ message error.

Definition handler (w : world) (request : Request) : M Response :=
  if negb (String.eqb (method request) "POST") then
    ret (status_json 405 (message_body "Method Not Allowed"))
  else if negb (truthy (GEMINI_API_KEY w)) then
    ret (status_json 500
           (message_body "Server is full, please try again later."))
  else
    try_catch
      (parsed <- call EvFormParse (form_parse w request) ;;
       let '(fields, files) := parsed in
       match assoc_last "image" files with
       | None | Some [] =>
           ret (status_json 400 (message_body "No image file uploaded."))
       | Some (imageFile :: _) =>
           isImage <- call_startsWith (mimetype imageFile) "image/" ;;
           if negb isImage then
             ret (status_json 400
                    (message_body "Invalid file type. Please upload an image."))
           else
             imageBuffer <- call (EvReadFile (filepath imageFile))
                                 (readFile w (filepath imageFile)) ;;
             let imagePart :=
               fileToGenerativePart imageBuffer (mimetype imageFile) in
             let assetType := field_or fields "assetType" "this asset" in
             let timeframe := field_or fields "timeframe" "this timeframe" in
             let additionalNotes :=
               field_or fields "additionalNotes" EmptyString in
             let outputLanguage := field_or fields "outputLanguage" "en" in
             let languagePrompt :=
               if is_str outputLanguage "id"
               then "Berikan semua teks dalam output JSON dalam Bahasa Indonesia."
               else "Provide all text in the JSON output in English." in
             let parts :=
               [ imagePart;
                 Text (detailedPrompt assetType timeframe additionalNotes
                         languagePrompt) ] in
             let req :=
               {| contents := parts;
                  responseMimeType := Some "application/json" |} in
             result <- call (EvGenerateContent model req)
                            (generateContent w model req) ;;
             geminiResponseText <- lift result ;;
             console_log "Gemini Raw JSON Response:" geminiResponseText ;;;
             analysisOutput <-
               try_catch
                 (JSON_parse w geminiResponseText)
                 (fun parseError =>
                    console_error
                      "Failed to parse Gemini's JSON response, sending fallback text:"
                      parseError ;;;
                    ret (fallback outputLanguage geminiResponseText)) ;;
             ret (status_json 200 (analysis_body analysisOutput))
       end)
      (fun error =>
         console_error "Error in analyze-chart API:" error ;;;
         ret (status_json 500 (message_body (errorMessage request error)))).

End Technical.

(** ** [api/analyze-chart.js (fundamental)]: the fundamental-analysis
    handler *)
Module Fundamental.

Definition model : string := "gemini-2.5-pro".

Definition fallback (outputLanguage : option string)
    (geminiResponseText : string) : json :=
  let fallbackMessage :=
    if is_str outputLanguage "id"
    then "Gagal mem-parse analisis rinci dari AI. Respon mentah: "
    else "Failed to parse detailed analysis from AI. Raw response: " in
  let fallbackRiskWarning :=
    if is_str outputLanguage "id"
    then "Selalu berhati-hati. Analisis AI hanya untuk tujuan informasi."
    else "Always exercise caution. AI analysis is for informational purposes only." in
  JObj [ ("direction",
          JStr (if is_str outputLanguage "id" then "Tidak Pasti"
                else "Uncertain"));
         ("rationale", JStr (fallbackMessage ++ geminiResponseText));
         ("support", JStr "N/A");
         ("resistance", JStr "N/A");
         ("riskWarning", JStr fallbackRiskWarning) ].

Definition errorMessage (request : Request) (error : js_error) : string :=
  if accepts_id request
  then "Gagal menganalisis grafik. Detail kesalahan: " ++ message error
  else "Failed to analyze chart. Error details: " ++ message error.

(** The array [parts], as it stands when the model is called. *)
Definition parts (imagePart : Part) (assetType additionalNotes : option string)
    (languagePrompt : string) : list Part :=
  let parts :=
    [ imagePart;
      Text "This fundamental prediction. ";
      Text ("It's for " ++ show assetType ++ " asset.");
      Text "Provide a clear prediction of the market's likely direction (e.g., Good, Bad, Neutral) and a brief rationale." ] in
  let parts :=
    if truthy additionalNotes then
      (parts ++
       [ Text ("Additional context from user: " ++ dq
               ++ show additionalNotes ++ dq
               ++ ". Incorporate this into your analysis if relevant.") ])%list
    else parts in
  let parts :=
    (parts ++
     [ Text ("Focus on the fundamentals that will be predicted and focus on providing predictions on where the price will move when the data is published and what steps are the safest to take to avoid being liquidated. Please provide a complete and detailed prediction of the market price position. Provide output in this structured JSON-like format: { "
             ++ dq ++ "direction" ++ dq ++ ": " ++ dq ++ "string" ++ dq ++ ", "
             ++ dq ++ "rationale" ++ dq ++ ": " ++ dq ++ "string" ++ dq ++ ", "
             ++ dq ++ "support" ++ dq ++ ": " ++ dq ++ "string" ++ dq ++ ", "
             ++ dq ++ "resistance" ++ dq ++ ": " ++ dq ++ "string" ++ dq ++ ", "
             ++ dq ++ "riskWarning" ++ dq ++ ": " ++ dq ++ "string" ++ dq
             ++ " }. " ++ languagePrompt) ])%list in
  parts.

(** The body of the inner [try]. *)
Definition extract (w : world) (geminiResponseText : string) : M json :=
  let jsonMatch := match_json_fence geminiResponseText in
  match jsonMatch with
  | Some group1 =>
      if nonempty group1 then JSON_parse w group1
      else JSON_parse w geminiResponseText
  | None => JSON_parse w geminiResponseText
  end.

Definition handler (w : world) (request : Request) : M Response :=
  if negb (String.eqb (method request) "POST") then
    ret (status_json 405 (message_body "Method Not Allowed"))
  else if negb (truthy (GEMINI_API_KEY w)) then
    ret (status_json 500
           (message_body "Server is full, please try again later."))
  else
    try_catch
      (parsed <- call EvFormParse (form_parse w request) ;;
       let '(fields, files) := parsed in
       match assoc_last "image" files with
       | None | Some [] =>
           ret (status_json 400 (message_body "No image file uploaded."))
       | Some (imageFile :: _) =>
           isImage <- call_startsWith (mimetype imageFile) "image/" ;;
           if negb isImage then
             ret (status_json 400
                    (message_body "Invalid file type. Please upload an image."))
           else
             imageBuffer <- call (EvReadFile (filepath imageFile))
                                 (readFile w (filepath imageFile)) ;;
             let imagePart :=
               fileToGenerativePart imageBuffer (mimetype imageFile) in
             let assetType := field_or fields "assetType" EmptyString in
             let timeframe := field_or fields "timeframe" EmptyString in
             let additionalNotes :=
               field_or fields "additionalNotes" EmptyString in
             let outputLanguage := field_or fields "outputLanguage" "en" in
             let languagePrompt :=
               if is_str outputLanguage "id"
               then "Berikan jawaban dalam Bahasa Indonesia."
               else "Provide the answer in English." in
             let parts :=
               parts imagePart assetType additionalNotes languagePrompt in
             let req := {| contents := parts; responseMimeType := None |} in
             result <- call (EvGenerateContent model req)
                            (generateContent w model req) ;;
             geminiResponseText <- lift result ;;
             console_log "Gemini Raw Response:" geminiResponseText ;;;
             analysisOutput <-
               try_catch
                 (extract w geminiResponseText)
                 (fun parseError =>
                    console_error
                      "Failed to parse Gemini's JSON response, sending fallback text:"
                      parseError ;;;
                    ret (fallback outputLanguage geminiResponseText)) ;;
             ret (status_json 200 (analysis_body analysisOutput))
       end)
      (fun error =>
         console_error "Error in analyze-chart API:" error ;;;
         ret (status_json 500 (message_body (errorMessage request error)))).

End Fundamental.

(** ** [api/analyze-chart.js], the first draft: busboy is set up and left
    idle, formidable does the parsing; no output language, no localized
    messages *)
Module Draft.

Definition model : string := "gemini-1.5-flash-latest".

Definition fallback (geminiResponseText : string) : json :=
  JObj [ ("direction", JStr "Uncertain");
         ("rationale",
          JStr ("Could not parse detailed analysis from AI. Raw response: "
                ++ geminiResponseText));
         ("support", JStr "N/A");
         ("resistance", JStr "N/A");
         ("riskWarning",
          JStr "Always exercise caution. AI analysis is for informational purposes only.") ].

Definition errorMessage (error : js_error) : string :=
  "Failed to analyze chart. Please check the image and try again. Error: "
  ++ message error.

(** The array [parts], as it stands when the model is called. *)
Definition parts (imagePart : Part)
    (assetType timeframe additionalNotes : option string) : list Part :=
  let parts :=
    [ imagePart;
      Text "Analyze this market chart. ";
      Text ("It's for " ++ show assetType ++ " with a "
            ++ show timeframe ++ " timeframe.");
      Text "Provide a clear prediction of the market's likely direction (e.g., Bullish, Bearish, Sideways) and a brief rationale." ] in
  let parts :=
    if truthy additionalNotes then
      (parts ++
       [ Text ("Additional context from user: " ++ dq
               ++ show additionalNotes ++ dq
               ++ ". Incorporate this into your analysis if relevant.") ])%list
    else parts in
  let parts :=
    (parts ++
     [ Text ("Focus on key technical patterns, support/resistance levels, and overall trend. Please also include a short risk warning. Provide output in this structured JSON-like format: { "
             ++ dq ++ "direction" ++ dq ++ ": " ++ dq ++ "string" ++ dq ++ ", "
             ++ dq ++ "rationale" ++ dq ++ ": " ++ dq ++ "string" ++ dq ++ ", "
             ++ dq ++ "support" ++ dq ++ ": " ++ dq ++ "string" ++ dq ++ ", "
             ++ dq ++ "resistance" ++ dq ++ ": " ++ dq ++ "string" ++ dq ++ ", "
             ++ dq ++ "riskWarning" ++ dq ++ ": " ++ dq ++ "string" ++ dq
             ++ " }") ])%list in
  parts.

Definition extract (w : world) (geminiResponseText : string) : M json :=
  let jsonMatch := match_json_fence geminiResponseText in
  match jsonMatch with
  | Some group1 =>
      if nonempty group1 then JSON_parse w group1
      else JSON_parse w geminiResponseText
  | None => JSON_parse w geminiResponseText
  end.

Definition handler (w : world) (request : Request) : M Response :=
  if negb (String.eqb (method request) "POST") then
    ret (status_json 405 (message_body "Method Not Allowed"))
  else if negb (truthy (GEMINI_API_KEY w)) then
    ret (status_json 500
           (message_body
              "GEMINI_API_KEY environment variable is not configured."))
  else
    try_catch
      (call EvBusboy (busboy w request) ;;;
       parsed <- call EvFormParse (form_parse w request) ;;
       let '(fields, files) := parsed in
       match assoc_last "image" files with
       | None | Some [] =>
           ret (status_json 400 (message_body "No image file uploaded."))
       | Some (imageFile :: _) =>
           isImage <- call_startsWith (mimetype imageFile) "image/" ;;
           if negb isImage then
             ret (status_json 400
                    (message_body "Invalid file type. Please upload an image."))
           else
             imageBuffer <- call (EvReadFile (filepath imageFile))
                                 (readFile w (filepath imageFile)) ;;
             let imagePart :=
               fileToGenerativePart imageBuffer (mimetype imageFile) in
             let assetType := field_or fields "assetType" EmptyString in
             let timeframe := field_or fields "timeframe" EmptyString in
             let additionalNotes :=
               field_or fields "additionalNotes" EmptyString in
             let parts :=
               parts imagePart assetType timeframe additionalNotes in
             let req := {| contents := parts; responseMimeType := None |} in
             result <- call (EvGenerateContent model req)
                            (generateContent w model req) ;;
             geminiResponseText <- lift result ;;
             console_log "Gemini Raw Response:" geminiResponseText ;;;
             analysisOutput <-
               try_catch
                 (extract w geminiResponseText)
                 (fun parseError =>
                    console_error
                      "Failed to parse Gemini's JSON response, sending raw text:"
                      parseError ;;;
                    ret (fallback geminiResponseText)) ;;
             ret (status_json 200 (analysis_body analysisOutput))
       end)
      (fun error =>
         console_error "Error in analyze-chart API:" error ;;;
         ret (status_json 500 (message_body (errorMessage error)))).

End Draft.

(** ** Vocabulary of the specification *)

(** What a run sends back and what it did on the way. *)
Definition sent (m : M Response) : result Response := fst (run m).
Definition log (m : M Response) : trace := snd (run m).

Definition value_of {A} (r : result A) : option A :=
  match r with Returns a => Some a | Throws _ => None end.

Definition is_generate (ev : event) : bool :=
  match ev with EvGenerateContent _ _ => true | _ => false end.

(** The number of outbound calls to the model provider in a trace. *)
Definition model_calls (tr : trace) : nat :=
  List.length (List.filter is_generate tr).

(** [s] cut at the first occurrence of [p]: what precedes it and what
    follows it. *)
Fixpoint split_at_first (p s : string) : option (string * string) :=
  if String.prefix p s then Some (EmptyString, drop (String.length p) s)
  else match s with
       | EmptyString => None
       | String c r =>
           match split_at_first p r with
           | Some (before, after) => Some (String c before, after)
           | None => None
           end
       end.

(** The content of the first fenced json block of a reply, in the words of
    the specification: the text between the first opening fence and the
    first closing fence after it. *)
Definition first_json_block (reply : string) : option string :=
  match split_at_first fence_open reply with
  | Some (_, after) =>
      match split_at_first fence_close after with
      | Some (content, _) => Some content
      | None => None
      end
  | None => None
  end.

(** The record of a reply, in the words of the specification: the first
    block's content parsed when there is a block, the whole reply parsed
    otherwise. *)
Definition fenced_parse (reply : string) : option json :=
  match first_json_block reply with
  | Some content => JSON.parse content
  | None => JSON.parse reply
  end.

(** The five members of the analysis record. *)
Definition analysis_fields : list string :=
  ["direction"; "rationale"; "support"; "resistance"; "riskWarning"].

Definition expected_record (v : json) : Prop :=
  forall k, In k analysis_fields -> exists s, get_field k v = Some (JStr s).

(** The two shapes of an answer: 200 with an analysis, or 400, 405 or 500
    with a message. *)
Definition answer_shape (r : result Response) : Prop :=
  exists resp, r = Returns resp
    /\ ((status resp = 200 /\ exists a, payload resp = JObj [("analysis", a)])
        \/ ((status resp = 400 \/ status resp = 405 \/ status resp = 500)
            /\ exists m, payload resp = JObj [("message", JStr m)])).

(** The placeholder of the inner [catch], whatever the version: texts
    chosen before the reply is known, and a rationale that is the fixed
    lead followed by the raw reply. *)
Definition placeholder (record : string -> json) : Prop :=
  exists direction lead warning,
    (direction = "Uncertain" \/ direction = "Tidak Pasti")
    /\ forall reply,
         record reply
         = JObj [ ("direction", JStr direction);
                  ("rationale", JStr (lead ++ reply));
                  ("support", JStr "N/A");
                  ("resistance", JStr "N/A");
                  ("riskWarning", JStr warning) ].

(** The upload passes the two checks of the handler: there is a first
    [image] file and its type is a string that starts with [image/]. *)
Definition valid_upload (files : Files) (imageFile : File) : Prop :=
  (exists others, assoc_last "image" files = Some (imageFile :: others))
  /\ exists m, mimetype imageFile = Str m /\ startsWith m "image/" = true.

(** ** The lexical skeleton of a JSON text

    Outside a string literal no grave accent may stand; inside one no raw
    control character may.  [scan] follows a text through these two places
    and ends in [Bad] as soon as either rule is broken. *)
Inductive lex_state : Type := Out | InStr | Esc | Bad.

Definition lex_step (st : lex_state) (c : ascii) : lex_state :=
  match st with
  | Out =>
      if Ascii.eqb c DQUOTE then InStr
      else if Ascii.eqb c "`" then Bad
      else Out
  | InStr =>
      if Ascii.eqb c DQUOTE then Out
      else if Ascii.eqb c BACKSLASH then Esc
      else if JSON.is_control c then Bad
      else InStr
  | Esc =>
      if Ascii.eqb c "u" then InStr
      else match JSON.simple_escape c with
           | Some _ => InStr
           | None => Bad
           end
  | Bad => Bad
  end.

Fixpoint scan (st : lex_state) (s : string) : lex_state :=
  match s with
  | EmptyString => st
  | String c r => scan (lex_step st c) r
  end.

(** ** Sample requests and worlds *)

Definition png : File :=
  {| filepath := "/tmp/upload-1"; mimetype := Str "image/png" |}.
Definition pdf : File :=
  {| filepath := "/tmp/upload-2"; mimetype := Str "application/pdf" |}.
Definition untyped : File :=
  {| filepath := "/tmp/upload-3"; mimetype := Null |}.

Definition post (language : string) : Request :=
  {| method := "POST";
     headers := [("accept-language", language)];
     body := "multipart body" |}.

Definition get : Request :=
  {| method := "GET"; headers := []; body := EmptyString |}.

(** A world with the credential set, whose collaborators answer the same
    whatever they are asked. *)
Definition mock (upload : result (Fields * Files)) (file : result string)
    (reply : result (result string)) : world :=
  {| GEMINI_API_KEY := Some "secret";
     busboy := fun _ => Returns tt;
     form_parse := fun _ => upload;
     readFile := fun _ => file;
     generateContent := fun _ _ => reply;
     SyntaxError := fun _ => mkError "Unexpected token" |}.

Definition no_key : world :=
  {| GEMINI_API_KEY := None;
     busboy := fun _ => Returns tt;
     form_parse := fun _ => Returns ([], []);
     readFile := fun _ => Returns EmptyString;
     generateContent := fun _ _ => Returns (Returns EmptyString);
     SyntaxError := fun _ => mkError "Unexpected token" |}.

Definition upload_of (language : string) (f : File) : Fields * Files :=
  ([("assetType", ["XAUUSD"]); ("outputLanguage", [language])],
   [("image", [f])]).


Definition good_reply : string :=
  q "{'direction':'Bullish','rationale':'Higher lows','support':'1900','resistance':'1950','riskWarning':'Not advice'}".

Definition good_record : json :=
  JObj [ ("direction", JStr "Bullish");
         ("rationale", JStr "Higher lows");
         ("support", JStr "1900");
         ("resistance", JStr "1950");
         ("riskWarning", JStr "Not advice") ].

Definition fenced_reply : string :=
  "Here is the analysis:" ++ nl ++ fence_open ++ good_reply ++ fence_close
  ++ nl ++ "Trade safely.".

Definition empty_fence_reply : string := fence_open ++ fence_close.

Definition prose_reply : string := "The chart looks bullish.".

(** ** The paths of a run

    What differs between the three versions, and the table of the paths a
    run can take: for each path, the answers of the world that lead to it,
    the response and the trace. *)

(** The text handed to [JSON.parse] by the inner [try] of the two earlier
    versions. *)
Definition fence_text (reply : string) : string :=
  match match_json_fence reply with
  | Some group1 => if nonempty group1 then group1 else reply
  | None => reply
  end.

Record version : Type := mkVersion {
  with_busboy : bool;
  key_message : string;
  error_message : Request -> js_error -> string;
  model_name : string;
  request_of : Fields -> string -> js_string -> GenerateRequest;
  reply_label : string;
  parsed_text : string -> string;
  parse_label : string;
  fallback_of : Fields -> string -> json
}.

Definition technical : version :=
  {| with_busboy := false;
     key_message := "Server is full, please try again later.";
     error_message := Technical.errorMessage;
     model_name := Technical.model;
     request_of := fun fields buffer type =>
       {| contents :=
            [ fileToGenerativePart buffer type;
              Text (Technical.detailedPrompt
                      (field_or fields "assetType" "this asset")
                      (field_or fields "timeframe" "this timeframe")
                      (field_or fields "additionalNotes" EmptyString)
                      (if is_str (field_or fields "outputLanguage" "en") "id"
                       then "Berikan semua teks dalam output JSON dalam Bahasa Indonesia."
                       else "Provide all text in the JSON output in English.")) ];
          responseMimeType := Some "application/json" |};
     reply_label := "Gemini Raw JSON Response:";
     parsed_text := fun reply => reply;
     parse_label :=
       "Failed to parse Gemini's JSON response, sending fallback text:";
     fallback_of := fun fields =>
       Technical.fallback (field_or fields "outputLanguage" "en") |}.

Definition fundamental : version :=
  {| with_busboy := false;
     key_message := "Server is full, please try again later.";
     error_message := Fundamental.errorMessage;
     model_name := Fundamental.model;
     request_of := fun fields buffer type =>
       {| contents :=
            Fundamental.parts (fileToGenerativePart buffer type)
              (field_or fields "assetType" EmptyString)
              (field_or fields "additionalNotes" EmptyString)
              (if is_str (field_or fields "outputLanguage" "en") "id"
               then "Berikan jawaban dalam Bahasa Indonesia."
               else "Provide the answer in English.");
          responseMimeType := None |};
     reply_label := "Gemini Raw Response:";
     parsed_text := fence_text;
     parse_label :=
       "Failed to parse Gemini's JSON response, sending fallback text:";
     fallback_of := fun fields =>
       Fundamental.fallback (field_or fields "outputLanguage" "en") |}.

Definition draft : version :=
  {| with_busboy := true;
     key_message := "GEMINI_API_KEY environment variable is not configured.";
     error_message := fun _ => Draft.errorMessage;
     model_name := Draft.model;
     request_of := fun fields buffer type =>
       {| contents :=
            Draft.parts (fileToGenerativePart buffer type)
              (field_or fields "assetType" EmptyString)
              (field_or fields "timeframe" EmptyString)
              (field_or fields "additionalNotes" EmptyString);
          responseMimeType := None |};
     reply_label := "Gemini Raw Response:";
     parsed_text := fence_text;
     parse_label :=
       "Failed to parse Gemini's JSON response, sending raw text:";
     fallback_of := fun _ => Draft.fallback |}.

(** The events before the body is parsed. *)
Definition prelude (v : version) : trace :=
  if with_busboy v then [EvBusboy] else [].

(** The request is a POST, the credential is set and, in the draft, busboy
    is set up. *)
Definition entered (v : version) (w : world) (request : Request) : Prop :=
  String.eqb (method request) "POST" = true
  /\ truthy (GEMINI_API_KEY w) = true
  /\ (with_busboy v = true -> busboy w request = Returns tt).

Definition caught (v : version) (request : Request) (e : js_error)
  : Response * event :=
  (status_json 500 (message_body (error_message v request e)),
   EvConsoleError "Error in analyze-chart API:" e).

Inductive path (v : version) (w : world) (request : Request)
  : result Response -> trace -> Prop :=
| path_method :
    String.eqb (method request) "POST" = false ->
    path v w request
      (Returns (status_json 405 (message_body "Method Not Allowed"))) []
| path_key :
    String.eqb (method request) "POST" = true ->
    truthy (GEMINI_API_KEY w) = false ->
    path v w request
      (Returns (status_json 500 (message_body (key_message v)))) []
| path_busboy e :
    String.eqb (method request) "POST" = true ->
    truthy (GEMINI_API_KEY w) = true ->
    with_busboy v = true ->
    busboy w request = Throws e ->
    path v w request (Returns (fst (caught v request e)))
      [EvBusboy; snd (caught v request e)]
| path_form e :
    entered v w request ->
    form_parse w request = Throws e ->
    path v w request (Returns (fst (caught v request e)))
      (prelude v ++ [EvFormParse; snd (caught v request e)])%list
| path_no_field fields files :
    entered v w request ->
    form_parse w request = Returns (fields, files) ->
    assoc_last "image" files = None ->
    path v w request
      (Returns (status_json 400 (message_body "No image file uploaded.")))
      (prelude v ++ [EvFormParse])%list
| path_no_file fields files :
    entered v w request ->
    form_parse w request = Returns (fields, files) ->
    assoc_last "image" files = Some [] ->
    path v w request
      (Returns (status_json 400 (message_body "No image file uploaded.")))
      (prelude v ++ [EvFormParse])%list
| path_null fields files imageFile others :
    entered v w request ->
    form_parse w request = Returns (fields, files) ->
    assoc_last "image" files = Some (imageFile :: others) ->
    mimetype imageFile = Null ->
    let e := mkError "Cannot read properties of null (reading 'startsWith')" in
    path v w request (Returns (fst (caught v request e)))
      (prelude v ++ [EvFormParse; snd (caught v request e)])%list
| path_undefined fields files imageFile others :
    entered v w request ->
    form_parse w request = Returns (fields, files) ->
    assoc_last "image" files = Some (imageFile :: others) ->
    mimetype imageFile = Undefined ->
    let e :=
      mkError "Cannot read properties of undefined (reading 'startsWith')" in
    path v w request (Returns (fst (caught v request e)))
      (prelude v ++ [EvFormParse; snd (caught v request e)])%list
| path_type fields files imageFile others type :
    entered v w request ->
    form_parse w request = Returns (fields, files) ->
    assoc_last "image" files = Some (imageFile :: others) ->
    mimetype imageFile = Str type ->
    startsWith type "image/" = false ->
    path v w request
      (Returns (status_json 400
                  (message_body "Invalid file type. Please upload an image.")))
      (prelude v ++ [EvFormParse])%list
| path_read fields files imageFile others type e :
    entered v w request ->
    form_parse w request = Returns (fields, files) ->
    assoc_last "image" files = Some (imageFile :: others) ->
    mimetype imageFile = Str type ->
    startsWith type "image/" = true ->
    readFile w (filepath imageFile) = Throws e ->
    path v w request (Returns (fst (caught v request e)))
      (prelude v
       ++ [EvFormParse; EvReadFile (filepath imageFile);
           snd (caught v request e)])%list
| path_generate fields files imageFile others type buffer e :
    entered v w request ->
    form_parse w request = Returns (fields, files) ->
    assoc_last "image" files = Some (imageFile :: others) ->
    mimetype imageFile = Str type ->
    startsWith type "image/" = true ->
    readFile w (filepath imageFile) = Returns buffer ->
    let req := request_of v fields buffer (Str type) in
    (generateContent w (model_name v) req = Throws e
     \/ generateContent w (model_name v) req = Returns (Throws e)) ->
    path v w request (Returns (fst (caught v request e)))
      (prelude v
       ++ [EvFormParse; EvReadFile (filepath imageFile);
           EvGenerateContent (model_name v) req; snd (caught v request e)])%list
| path_parsed fields files imageFile others type buffer reply record :
    entered v w request ->
    form_parse w request = Returns (fields, files) ->
    assoc_last "image" files = Some (imageFile :: others) ->
    mimetype imageFile = Str type ->
    startsWith type "image/" = true ->
    readFile w (filepath imageFile) = Returns buffer ->
    let req := request_of v fields buffer (Str type) in
    generateContent w (model_name v) req = Returns (Returns reply) ->
    JSON.parse (parsed_text v reply) = Some record ->
    path v w request (Returns (status_json 200 (analysis_body record)))
      (prelude v
       ++ [EvFormParse; EvReadFile (filepath imageFile);
           EvGenerateContent (model_name v) req;
           EvConsoleLog (reply_label v) reply])%list
| path_fallback fields files imageFile others type buffer reply :
    entered v w request ->
    form_parse w request = Returns (fields, files) ->
    assoc_last "image" files = Some (imageFile :: others) ->
    mimetype imageFile = Str type ->
    startsWith type "image/" = true ->
    readFile w (filepath imageFile) = Returns buffer ->
    let req := request_of v fields buffer (Str type) in
    generateContent w (model_name v) req = Returns (Returns reply) ->
    JSON.parse (parsed_text v reply) = None ->
    path v w request
      (Returns (status_json 200 (analysis_body (fallback_of v fields reply))))
      (prelude v
       ++ [EvFormParse; EvReadFile (filepath imageFile);
           EvGenerateContent (model_name v) req;
           EvConsoleLog (reply_label v) reply;
           EvConsoleError (parse_label v)
             (SyntaxError w (parsed_text v reply))])%list.

(** ** More vocabulary *)

(** The status of an answer. *)
Definition status_of (r : result Response) : option nat :=
  match r with Returns resp => Some (status resp) | Throws _ => None end.

(** The order of the outside actions of a run. *)
Definition phase (ev : event) : nat :=
  match ev with
  | EvBusboy => 0
  | EvFormParse => 1
  | EvReadFile _ => 2
  | EvGenerateContent _ _ => 3
  | EvConsoleLog _ _ => 4
  | EvConsoleError _ _ => 5
  end.

Fixpoint increasing (l : list nat) : bool :=
  match l with
  | a :: (b :: _) as r => (a <? b)%nat && increasing r
  | _ => true
  end.

(** The uploaded image was accepted and read. *)
Definition upload_read (w : world) (request : Request) : Prop :=
  exists fields files imageFile buffer,
    form_parse w request = Returns (fields, files)
    /\ valid_upload files imageFile
    /\ readFile w (filepath imageFile) = Returns buffer.

(** The parsed upload fails one of the two checks. *)
Definition upload_refused (files : Files) : Prop :=
  assoc_last "image" files = None
  \/ assoc_last "image" files = Some []
  \/ exists imageFile others type,
       assoc_last "image" files = Some (imageFile :: others)
       /\ mimetype imageFile = Str type
       /\ startsWith type "image/" = false.

(** The model was called in the trace and answered that call with a
    text. *)
Definition model_replied (w : world) (tr : trace) : Prop :=
  exists model req reply,
    In (EvGenerateContent model req) tr
    /\ generateContent w model req = Returns (Returns reply).

(** The request of a model call starts with the bytes of a file that was
    read in the trace, under a type that starts with [image/]. *)
Definition carries_image (w : world) (tr : trace) (req : GenerateRequest)
  : Prop :=
  exists path buffer type rest,
    contents req = InlineData (Base64 buffer) (Str type) :: rest
    /\ startsWith type "image/" = true
    /\ readFile w path = Returns buffer
    /\ In (EvReadFile path) tr.

(** The world [w] with another answer of formidable. *)
Definition with_form (w : world) (upload : result (Fields * Files)) : world :=
  {| GEMINI_API_KEY := GEMINI_API_KEY w;
     busboy := busboy w;
     form_parse := fun _ => upload;
     readFile := readFile w;
     generateContent := generateContent w;
     SyntaxError := SyntaxError w |}.

(** The [accept-language] header holds [id] somewhere. *)
Definition header_has_id (request : Request) : Prop :=
  exists h a b,
    assoc_last "accept-language" (headers request) = Some h
    /\ h = a ++ "id" ++ b.

(** The reply parses, by [parse], to a record of the expected shape. *)
Definition parsed_as_expected (parse : string -> option json)
    (reply : string) : Prop :=
  exists v, parse reply = Some v /\ expected_record v.

(** The lead of the message of the outer [catch] in the current and the
    fundamental version, told from the request alone. *)
Definition localized_lead (request : Request) (lead : string) : Prop :=
  (header_has_id request
   /\ lead = "Gagal menganalisis grafik. Detail kesalahan: ")
  \/ (~ header_has_id request
      /\ lead = "Failed to analyze chart. Error details: ").

(** A failure inside the guarded block of version [v], seen from outside:
    who threw, and what. *)
Inductive fails (v : version) (w : world) (request : Request)
  : js_error -> Prop :=
| fails_busboy e :
    with_busboy v = true ->
    busboy w request = Throws e ->
    fails v w request e
| fails_form_parse e :
    (with_busboy v = true -> busboy w request = Returns tt) ->
    form_parse w request = Throws e ->
    fails v w request e
| fails_null_type fields files imageFile others :
    (with_busboy v = true -> busboy w request = Returns tt) ->
    form_parse w request = Returns (fields, files) ->
    assoc_last "image" files = Some (imageFile :: others) ->
    mimetype imageFile = Null ->
    fails v w request
      (mkError "Cannot read properties of null (reading 'startsWith')")
| fails_undefined_type fields files imageFile others :
    (with_busboy v = true -> busboy w request = Returns tt) ->
    form_parse w request = Returns (fields, files) ->
    assoc_last "image" files = Some (imageFile :: others) ->
    mimetype imageFile = Undefined ->
    fails v w request
      (mkError "Cannot read properties of undefined (reading 'startsWith')")
| fails_read_file fields files imageFile e :
    (with_busboy v = true -> busboy w request = Returns tt) ->
    form_parse w request = Returns (fields, files) ->
    valid_upload files imageFile ->
    readFile w (filepath imageFile) = Throws e ->
    fails v w request e
| fails_generate fields files imageFile buffer e :
    (with_busboy v = true -> busboy w request = Returns tt) ->
    form_parse w request = Returns (fields, files) ->
    valid_upload files imageFile ->
    readFile w (filepath imageFile) = Returns buffer ->
    generateContent w (model_name v)
      (request_of v fields buffer (mimetype imageFile)) = Throws e ->
    fails v w request e
| fails_text fields files imageFile buffer e :
    (with_busboy v = true -> busboy w request = Returns tt) ->
    form_parse w request = Returns (fields, files) ->
    valid_upload files imageFile ->
    readFile w (filepath imageFile) = Returns buffer ->
    generateContent w (model_name v)
      (request_of v fields buffer (mimetype imageFile))
    = Returns (Throws e) ->
    fails v w request e.

(** ** More sample worlds *)

Definition empty_key : world :=
  {| GEMINI_API_KEY := Some EmptyString;
     busboy := fun _ => Returns tt;
     form_parse := fun _ => Returns (upload_of "en" png);
     readFile := fun _ => Returns "PNG";
     generateContent := fun _ _ => Returns (Returns good_reply);
     SyntaxError := fun _ => mkError "Unexpected token" |}.

Definition no_busboy : world :=
  {| GEMINI_API_KEY := Some "secret";
     busboy := fun _ => Throws (mkError "Missing Content-Type");
     form_parse := fun _ => Returns (upload_of "en" png);
     readFile := fun _ => Returns "PNG";
     generateContent := fun _ _ => Returns (Returns good_reply);
     SyntaxError := fun _ => mkError "Unexpected token" |}.

(** A world in which everything succeeds. *)
Definition sunny : world :=
  mock (Returns (upload_of "en" png)) (Returns "PNG")
    (Returns (Returns good_reply)).

Definition sunny_request : GenerateRequest :=
  request_of technical (fst (upload_of "en" png)) "PNG" (Str "image/png").

Definition two_files : Files :=
  [("attachment", [pdf]); ("image", [png; pdf])].

(** A reply that is JSON, but not the expected record. *)
Definition partial_reply : string := q "{'direction':'Bullish'}".

(** ** Proof automation *)

Ltac ascii_cases c := destruct c as [[] [] [] [] [] [] [] []].

Ltac handlers :=
  unfold sent, log, run, Technical.handler, Fundamental.handler, Draft.handler.

Ltac mstep :=
  cbv beta iota zeta
    delta [bind try_catch call ret throw lift console_log console_error
           call_startsWith fst snd negb].

(** Rewrite with every equation of the context that applies, reducing the
    monad in between. *)
Ltac known :=
  mstep;
  repeat (match goal with
          | H : ?l = _ |- context [?l] => rewrite H
          | H : forall model req, generateContent _ model req = _ |- _ =>
              rewrite H
          end; mstep).

Ltac enter Hm Hk := handlers; rewrite Hm, Hk, String.eqb_refl; known.

(** The three versions in turn; the draft first sets up busboy. *)
Ltac versions :=
  split; [|split; [|let Hb := fresh "Hb" in intros Hb; rewrite Hb; known]].

Ltac upload H :=
  let others := fresh "others" in
  let type := fresh "type" in
  let Hi := fresh "Hi" in
  let Ht := fresh "Ht" in
  let Hs := fresh "Hs" in
  destruct H as [[others Hi] [type [Ht Hs]]].

(** One more case of what the world may answer. *)
Ltac world_case :=
  match goal with
  | |- context [String.eqb (method ?r) "POST"] =>
      destruct (String.eqb (method r) "POST") eqn:?
  | |- context [truthy (GEMINI_API_KEY ?w)] =>
      destruct (truthy (GEMINI_API_KEY w)) eqn:?
  | |- context [busboy ?w ?r] => destruct (busboy w r) as [[]|?] eqn:?
  | |- context [form_parse ?w ?r] =>
      destruct (form_parse w r) as [[? ?]|?] eqn:?
  | |- context [assoc_last "image" ?f] =>
      destruct (assoc_last "image" f) as [[|? ?]|] eqn:?
  | |- context [mimetype ?f] => destruct (mimetype f) eqn:?
  | |- context [startsWith ?s "image/"] =>
      destruct (startsWith s "image/") eqn:?
  | |- context [readFile ?w ?p] => destruct (readFile w p) eqn:?
  | |- context [generateContent ?w ?m ?r] =>
      destruct (generateContent w m r) as [[?|?]|?] eqn:?
  | |- context [match_json_fence ?t] =>
      destruct (match_json_fence t) as [[|? ?]|] eqn:?
  | |- context [JSON.parse ?t] => destruct (JSON.parse t) eqn:?
  end.

Ltac all_cases :=
  handlers;
  unfold Fundamental.extract, Draft.extract, JSON_parse;
  repeat (mstep; world_case); mstep; cbv beta iota delta [nonempty].

Ltac unmatch H :=
  repeat match type of H with
    | match ?x with _ => _ end = _ =>
        let E := fresh "E" in destruct x eqn:E; try discriminate H
    end.

Ltac count_calls := cbn [model_calls List.filter is_generate app List.length].

Ltac mstep' :=
  cbv beta iota zeta
    delta [bind try_catch call ret throw lift console_log console_error
           fst snd negb].

Ltac is_entered :=
  repeat split; first [eassumption | discriminate | intros; eassumption].

(** The path of a run whose case analysis is in the context. *)
Ltac path_leaf v :=
  try match goal with
      | |- path _ ?w ?r _ _ =>
          assert (entered v w r) by is_entered
      end;
  match goal with
  | Hm : String.eqb (method _) "POST" = false |- _ =>
      exact (path_method v _ _ Hm)
  | Hm : String.eqb (method _) "POST" = true, Hk : truthy _ = false |- _ =>
      exact (path_key v _ _ Hm Hk)
  | Hm : String.eqb (method _) "POST" = true, Hk : truthy _ = true,
    Hb : busboy _ _ = Throws _ |- _ =>
      exact (path_busboy v _ _ _ Hm Hk eq_refl Hb)
  | He : entered _ _ _, P : form_parse _ _ = Throws _ |- _ =>
      exact (path_form v _ _ _ He P)
  | He : entered _ _ _, P : form_parse _ _ = Returns _,
    I : assoc_last "image" _ = None |- _ =>
      exact (path_no_field v _ _ _ _ He P I)
  | He : entered _ _ _, P : form_parse _ _ = Returns _,
    I : assoc_last "image" _ = Some [] |- _ =>
      exact (path_no_file v _ _ _ _ He P I)
  | He : entered _ _ _, P : form_parse _ _ = Returns _,
    I : assoc_last "image" _ = Some (_ :: _), T : mimetype _ = Null |- _ =>
      exact (path_null v _ _ _ _ _ _ He P I T)
  | He : entered _ _ _, P : form_parse _ _ = Returns _,
    I : assoc_last "image" _ = Some (_ :: _), T : mimetype _ = Undefined
    |- _ =>
      exact (path_undefined v _ _ _ _ _ _ He P I T)
  | He : entered _ _ _, P : form_parse _ _ = Returns _,
    I : assoc_last "image" _ = Some (_ :: _), T : mimetype _ = Str _,
    S : startsWith _ _ = false |- _ =>
      exact (path_type v _ _ _ _ _ _ _ He P I T S)
  | He : entered _ _ _, P : form_parse _ _ = Returns _,
    I : assoc_last "image" _ = Some (_ :: _), T : mimetype _ = Str _,
    S : startsWith _ _ = true, R : readFile _ _ = Throws _ |- _ =>
      exact (path_read v _ _ _ _ _ _ _ _ He P I T S R)
  | He : entered _ _ _, P : form_parse _ _ = Returns _,
    I : assoc_last "image" _ = Some (_ :: _), T : mimetype _ = Str _,
    S : startsWith _ _ = true, R : readFile _ _ = Returns _,
    G : generateContent _ _ _ = Throws _ |- _ =>
      exact (path_generate v _ _ _ _ _ _ _ _ _ He P I T S R (or_introl G))
  | He : entered _ _ _, P : form_parse _ _ = Returns _,
    I : assoc_last "image" _ = Some (_ :: _), T : mimetype _ = Str _,
    S : startsWith _ _ = true, R : readFile _ _ = Returns _,
    G : generateContent _ _ _ = Returns (Throws _) |- _ =>
      exact (path_generate v _ _ _ _ _ _ _ _ _ He P I T S R (or_intror G))
  | He : entered _ _ _, P : form_parse _ _ = Returns _,
    I : assoc_last "image" _ = Some (_ :: _), T : mimetype _ = Str _,
    S : startsWith _ _ = true, R : readFile _ _ = Returns _,
    G : generateContent _ _ _ = Returns (Returns _),
    J : JSON.parse _ = Some _ |- _ =>
      exact (path_parsed v _ _ _ _ _ _ _ _ _ _ He P I T S R G J)
  | He : entered _ _ _, P : form_parse _ _ = Returns _,
    I : assoc_last "image" _ = Some (_ :: _), T : mimetype _ = Str _,
    S : startsWith _ _ = true, R : readFile _ _ = Returns _,
    G : generateContent _ _ _ = Returns (Returns _),
    J : JSON.parse _ = None |- _ =>
      exact (path_fallback v _ _ _ _ _ _ _ _ _ He P I T S R G J)
  end.

(** Case analysis of a run along the table of its paths. *)
Ltac by_path lemma h w request :=
  let T := fresh "T" in
  pose proof (lemma w request) as T; revert T;
  generalize (log (h w request)); generalize (sent (h w request));
  intros ? ? T; destruct T;
  try match goal with
      | H : with_busboy _ = true |- _ => discriminate H
      end;
  repeat match goal with x := _ |- _ => subst x end;
  repeat match goal with
    | H : entered _ _ _ |- _ =>
        let Hm := fresh "Hm" in
        let Hk := fresh "Hk" in
        let Hb := fresh "Hb" in
        destruct H as (Hm & Hk & Hb)
    end;
  repeat match goal with
    | H : String.eqb (method _) "POST" = true |- _ =>
        apply String.eqb_eq in H
    | H : String.eqb (method _) "POST" = false |- _ =>
        apply String.eqb_neq in H
    end.

Ltac show_trace :=
  try change (prelude technical) with (@nil event);
  try change (prelude fundamental) with (@nil event);
  try change (prelude draft) with [EvBusboy];
  cbn [In app caught snd].

Ltac in_trace H :=
  try change (prelude technical) with (@nil event) in H;
  try change (prelude fundamental) with (@nil event) in H;
  try change (prelude draft) with [EvBusboy] in H;
  cbn [In app caught snd] in H;
  repeat match type of H with
    | _ \/ _ => destruct H as [H|H]
    | False => destruct H
    | _ = _ => first [discriminate H | injection H as <- <-]
    end.

Ltac same_run :=
  handlers; cbn [with_form GEMINI_API_KEY form_parse];
  repeat match goal with
    | |- context [String.eqb (method ?r) "POST"] =>
        destruct (String.eqb (method r) "POST")
    | |- context [truthy (GEMINI_API_KEY ?w)] =>
        destruct (truthy (GEMINI_API_KEY w))
    end;
  cbn [negb]; mstep.

(** The call of the model in the goal is the one a hypothesis speaks of. *)
Ltac provider H :=
  match type of H with
  | ?lhs = _ =>
      match goal with
      | |- context [generateContent ?w ?m ?r] =>
          change (generateContent w m r) with lhs; rewrite H
      end
  end.

Ltac failure Hm Hk Hf :=
  destruct Hf;
  try match goal with H : with_busboy _ = true |- _ => discriminate H end;
  try match goal with H : valid_upload _ _ |- _ => upload H end;
  repeat match goal with
    | H : with_busboy draft = true -> _ |- _ => specialize (H eq_refl)
    | H : with_busboy _ = true -> _ |- _ => clear H
    end;
  repeat match goal with
    | T : mimetype ?f = Str _, G : context [request_of _ _ _ (mimetype ?f)]
      |- _ => rewrite T in G
    end;
  enter Hm Hk;
  try match goal with
      | G : generateContent _ _ _ = _ |- _ => provider G; mstep
      end.

(** * Properties *)

(** ** The model at work *)

Example parse_record : JSON.parse good_reply = Some good_record.
Proof. reflexivity. Qed.

Example parse_nested :
  JSON.parse (q " {'a': [1, -2.5e+3, true, null], 'b': {'c': 'x\u0041'}} ")
  = Some (JObj [ ("a", JArr [JNum "1"; JNum "-2.5e+3"; JBool true; JNull]);
                 ("b", JObj [("c", JStr "xA")]) ]).
Proof. reflexivity. Qed.

Example parse_rejects :
  List.map JSON.parse
    [ prose_reply; q "{'a':1,}"; "01"; "[1 2]"; q "{'a':1} x"; q "'a"; "tru" ]
  = [ None; None; None; None; None; None; None ].
Proof. reflexivity. Qed.

Example fence_found : match_json_fence fenced_reply = Some good_reply.
Proof. reflexivity. Qed.

Example fence_empty : match_json_fence empty_fence_reply = Some EmptyString.
Proof. reflexivity. Qed.

Example fence_unclosed :
  match_json_fence (fence_open ++ good_reply) = None.
Proof. reflexivity. Qed.

(** A reply that is JSON but not a record is relayed as it is: only a
    thrown [SyntaxError] leads to the placeholder. *)
Example number_reply_relayed :
  sent (Technical.handler
          (mock (Returns (upload_of "en" png)) (Returns "PNG")
             (Returns (Returns "42"))) (post "en"))
  = Returns (status_json 200 (analysis_body (JNum "42"))).
Proof. reflexivity. Qed.

(** An empty block sends the draft to the whole reply, which does not
    parse either. *)
Example empty_fence_placeholder :
  sent (Draft.handler
          (mock (Returns (upload_of "en" png)) (Returns "PNG")
             (Returns (Returns empty_fence_reply))) (post "en"))
  = Returns (status_json 200 (analysis_body (Draft.fallback empty_fence_reply))).
Proof. reflexivity. Qed.

(** ** Strings *)

Lemma prefix_split (p s : string) :
  String.prefix p s = true -> s = p ++ drop (String.length p) s.
Proof.
  revert s; induction p as [|a p IH]; intros s H; simpl.
  - reflexivity.
  - destruct s as [|b s]; simpl in H; [discriminate|].
    destruct (ascii_dec a b) as [->|]; [|discriminate].
    f_equal. now apply IH.
Qed.

Lemma drop_tail (k : nat) (c : ascii) (s : string) :
  drop (S k) (String c s) = drop k s.
Proof. reflexivity. Qed.

Lemma drop_empty (k : nat) : drop k EmptyString = EmptyString.
Proof. now destruct k. Qed.

Lemma drop_drop (j k : nat) (s : string) : drop j (drop k s) = drop (k + j) s.
Proof.
  revert s; induction k as [|k IH]; intros s; simpl.
  - reflexivity.
  - destruct s; [apply drop_empty | apply IH].
Qed.

Lemma split_at_first_sound (p s before after : string) :
  split_at_first p s = Some (before, after) -> s = before ++ p ++ after.
Proof.
  revert before; induction s as [|c s IH]; intros before H;
    cbn [split_at_first] in H.
  - destruct (String.prefix p EmptyString) eqn:E; [|discriminate].
    injection H as <- <-. now apply prefix_split.
  - destruct (String.prefix p (String c s)) eqn:E.
    + injection H as <- <-. now apply prefix_split.
    + destruct (split_at_first p s) as [[b a]|]; [|discriminate].
      injection H as <- <-. simpl. f_equal. now apply IH.
Qed.

(** ** The fence pattern finds the first block *)

Lemma lazy_until_close_split (s : string) :
  lazy_until_close s = option_map fst (split_at_first fence_close s).
Proof.
  induction s as [|c s IH].
  - reflexivity.
  - cbn [lazy_until_close split_at_first].
    destruct (String.prefix fence_close (String c s)); [reflexivity|].
    rewrite IH. now destruct (split_at_first fence_close s) as [[b a]|].
Qed.

Lemma lazy_until_close_tail (c : ascii) (s : string) :
  lazy_until_close (String c s) = None -> lazy_until_close s = None.
Proof.
  cbn [lazy_until_close].
  destruct (String.prefix fence_close (String c s)); [discriminate|].
  now destruct (lazy_until_close s).
Qed.

Lemma lazy_until_close_drop (k : nat) (s : string) :
  lazy_until_close s = None -> lazy_until_close (drop k s) = None.
Proof.
  revert s; induction k as [|k IH]; intros s H; [assumption|].
  destruct s as [|c s]; [assumption|].
  rewrite drop_tail. apply IH. now apply lazy_until_close_tail with c.
Qed.

Lemma match_json_fence_later (s g : string) :
  match_json_fence s = Some g ->
  exists k, lazy_until_close (drop (String.length fence_open + k) s) = Some g.
Proof.
  induction s as [|c s IH]; cbn [match_json_fence]; intros H.
  - discriminate.
  - destruct (match_here (String c s)) as [g'|] eqn:E.
    + injection H as ->. exists 0. rewrite Nat.add_0_r.
      unfold match_here in E.
      destruct (String.prefix fence_open (String c s)); [assumption|discriminate].
    + destruct (IH H) as [k Hk]. exists (S k).
      now rewrite Nat.add_succ_r, drop_tail.
Qed.

Lemma first_json_block_tail (c : ascii) (s : string) :
  String.prefix fence_open (String c s) = false ->
  first_json_block (String c s) = first_json_block s.
Proof.
  intros H. unfold first_json_block. cbn [split_at_first]. rewrite H.
  now destruct (split_at_first fence_open s) as [[b a]|].
Qed.

Lemma match_json_fence_first_block (s : string) :
  match_json_fence s = first_json_block s.
Proof.
  induction s as [|c s IH].
  - reflexivity.
  - cbn [match_json_fence]. unfold match_here.
    destruct (String.prefix fence_open (String c s)) eqn:E.
    + assert (Hb : first_json_block (String c s)
                   = lazy_until_close
                       (drop (String.length fence_open) (String c s))).
      { unfold first_json_block. cbn [split_at_first]. rewrite E.
        rewrite lazy_until_close_split.
        now destruct (split_at_first fence_close _) as [[b a]|]. }
      rewrite Hb.
      destruct (lazy_until_close _) as [g|] eqn:L; [reflexivity|].
      destruct (match_json_fence s) as [g|] eqn:R; [|reflexivity].
      destruct (match_json_fence_later _ _ R) as [k Hk].
      apply (lazy_until_close_drop (S k)) in L.
      rewrite drop_drop, Nat.add_succ_r, drop_tail in L. congruence.
    + rewrite IH. symmetry. now apply first_json_block_tail.
Qed.

(** A reply with a block contains the opening fence. *)
Lemma first_json_block_fence (reply content : string) :
  first_json_block reply = Some content ->
  exists before after, reply = before ++ fence_open ++ after.
Proof.
  unfold first_json_block.
  destruct (split_at_first fence_open reply) as [[b a]|] eqn:E; [|discriminate].
  intros _. exists b, a. now apply split_at_first_sound.
Qed.

(** ** No JSON text contains an opening fence *)

Lemma scan_app (st : lex_state) (a b : string) :
  scan st (a ++ b) = scan (scan st a) b.
Proof.
  revert st; induction a as [|c a IH]; intros st; simpl; [reflexivity | apply IH].
Qed.

Lemma scan_bad (s : string) : scan Bad s = Bad.
Proof. induction s; simpl; auto. Qed.

Lemma scan_fence_open (st : lex_state) (s : string) :
  scan st (fence_open ++ s) = Bad.
Proof. destruct st; simpl; apply scan_bad. Qed.

Lemma step_digit (c : ascii) : JSON.is_digit c = true -> lex_step Out c = Out.
Proof. ascii_cases c; intros H; try discriminate H; reflexivity. Qed.

Lemma step_hex (c : ascii) (n : nat) :
  JSON.hex_val c = Some n -> lex_step InStr c = InStr.
Proof. ascii_cases c; intros H; try discriminate H; reflexivity. Qed.

Lemma step_escape (c x : ascii) :
  JSON.simple_escape c = Some x -> lex_step Esc c = InStr.
Proof. ascii_cases c; intros H; try discriminate H; reflexivity. Qed.

Lemma step_eq (c d : ascii) :
  Ascii.eqb c d = true -> lex_step Out d = Out -> lex_step Out c = Out.
Proof. intros H; apply Ascii.eqb_eq in H; now subst. Qed.

Lemma step_ws (c : ascii) : JSON.is_ws c = true -> lex_step Out c = Out.
Proof. ascii_cases c; intros H; try discriminate H; reflexivity. Qed.

Lemma lex_string_scan (n : nat) (s str rest : string) :
  String.length s <= n ->
  JSON.lex_string s = Some (str, rest) ->
  scan InStr s = scan Out rest.
Proof.
  revert s str rest; induction n as [|n IH]; intros s str rest Hn H;
    destruct s as [|c r]; try discriminate H; simpl in Hn; [lia|].
  cbn [JSON.lex_string] in H. cbn [scan lex_step].
  destruct (Ascii.eqb c DQUOTE) eqn:Eq.
  { now injection H as <- <-. }
  destruct (Ascii.eqb c BACKSLASH) eqn:Eb.
  - destruct r as [|e r1]; [discriminate H|]. cbn [scan lex_step].
    destruct (Ascii.eqb e "u") eqn:Eu.
    + destruct r1 as [|h1 [|h2 [|h3 [|h4 r2]]]]; try discriminate H.
      destruct (JSON.hex_val h1) eqn:H1; [|discriminate H].
      destruct (JSON.hex_val h2) eqn:H2; [|discriminate H].
      destruct (JSON.hex_val h3) eqn:H3; [|discriminate H].
      destruct (JSON.hex_val h4) eqn:H4; [|discriminate H].
      destruct (JSON.lex_string r2) as [[b r']|] eqn:L; [|discriminate H].
      injection H as <- <-. cbn [scan].
      rewrite (step_hex _ _ H1), (step_hex _ _ H2),
        (step_hex _ _ H3), (step_hex _ _ H4).
      cbn [String.length] in Hn. apply IH with (2 := L). lia.
    + destruct (JSON.simple_escape e) eqn:Es; [|discriminate H].
      destruct (JSON.lex_string r1) as [[b r']|] eqn:L; [|discriminate H].
      injection H as <- <-.
      cbn [String.length] in Hn. apply IH with (2 := L). lia.
  - destruct (JSON.is_control c) eqn:Ec; [discriminate H|].
    destruct (JSON.lex_string r) as [[b r']|] eqn:L; [|discriminate H].
    injection H as <- <-.
    apply IH with (2 := L). lia.
Qed.

Lemma span_digits_scan (s ds rest : string) :
  JSON.span_digits s = (ds, rest) -> scan Out s = scan Out rest.
Proof.
  revert ds; induction s as [|c s IH]; intros ds H; cbn [JSON.span_digits] in H.
  - now injection H as <- <-.
  - destruct (JSON.is_digit c) eqn:Ed.
    + destruct (JSON.span_digits s) as [ds' rest'].
      injection H as <- <-. cbn [scan]. rewrite (step_digit _ Ed).
      now apply IH with ds'.
    + now injection H as <- <-.
Qed.

Lemma lex_sign_scan (s sg rest : string) :
  JSON.lex_sign s = (sg, rest) -> scan Out s = scan Out rest.
Proof.
  unfold JSON.lex_sign. destruct s as [|c r].
  - now intros [= <- <-].
  - destruct (Ascii.eqb c "-") eqn:E; intros [= <- <-]; [|reflexivity].
    cbn [scan]. now rewrite (step_eq _ _ E).
Qed.

Lemma lex_int_scan (s i rest : string) :
  JSON.lex_int s = Some (i, rest) -> scan Out s = scan Out rest.
Proof.
  unfold JSON.lex_int. destruct s as [|c r]; [discriminate|].
  destruct (Ascii.eqb c "0") eqn:E.
  - intros [= <- <-]. cbn [scan]. now rewrite (step_eq _ _ E).
  - destruct (JSON.is_digit c); [|discriminate].
    intros [= H]. now apply span_digits_scan with i.
Qed.

Lemma lex_frac_scan (s f rest : string) :
  JSON.lex_frac s = Some (f, rest) -> scan Out s = scan Out rest.
Proof.
  unfold JSON.lex_frac. destruct s as [|c r]; [now intros [= <- <-]|].
  destruct (Ascii.eqb c ".") eqn:E; [|now intros [= <- <-]].
  destruct (JSON.span_digits r) as [ds rest'] eqn:D.
  destruct ds; [discriminate|]. intros [= <- <-].
  cbn [scan]. rewrite (step_eq _ _ E) by reflexivity.
  now apply span_digits_scan in D.
Qed.

Lemma lex_exp_scan (s e rest : string) :
  JSON.lex_exp s = Some (e, rest) -> scan Out s = scan Out rest.
Proof.
  unfold JSON.lex_exp. destruct s as [|c r]; [now intros [= <- <-]|].
  destruct (Ascii.eqb c "e" || Ascii.eqb c "E") eqn:E; [|now intros [= <- <-]].
  assert (Hc : lex_step Out c = Out).
  { apply orb_true_iff in E as [E|E]; now rewrite (step_eq _ _ E). }
  cbn [scan]. rewrite Hc.
  assert (Hs : forall sg r1,
             match r with
             | String g r' =>
                 if (Ascii.eqb g "+" || Ascii.eqb g "-")%bool
                 then (str1 g, r') else (EmptyString, r)
             | EmptyString => (EmptyString, r)
             end = (sg, r1) -> scan Out r = scan Out r1).
  { intros sg r1. destruct r as [|g r']; [now intros [= <- <-]|].
    destruct (Ascii.eqb g "+" || Ascii.eqb g "-") eqn:G; intros [= <- <-];
      [|reflexivity].
    cbn [scan]. apply orb_true_iff in G as [G|G]; now rewrite (step_eq _ _ G). }
  destruct (match r with EmptyString => _ | String _ _ => _ end) as [sg r1].
  specialize (Hs _ _ eq_refl). rewrite Hs.
  destruct (JSON.span_digits r1) as [ds rest'] eqn:D.
  destruct ds; [discriminate|]. intros [= <- <-].
  now apply span_digits_scan in D.
Qed.

Lemma lex_number_scan (s lx rest : string) :
  JSON.lex_number s = Some (lx, rest) -> scan Out s = scan Out rest.
Proof.
  unfold JSON.lex_number.
  destruct (JSON.lex_sign s) as [sg r0] eqn:A.
  destruct (JSON.lex_int r0) as [[i r1]|] eqn:B; [|discriminate].
  destruct (JSON.lex_frac r1) as [[f r2]|] eqn:C; [|discriminate].
  destruct (JSON.lex_exp r2) as [[e r3]|] eqn:D; [|discriminate].
  intros [= <- <-].
  rewrite (lex_sign_scan _ _ _ A), (lex_int_scan _ _ _ B),
    (lex_frac_scan _ _ _ C). now apply lex_exp_scan with e.
Qed.

Lemma literal_scan (lit s : string) :
  scan Out lit = Out -> String.prefix lit s = true ->
  scan Out s = scan Out (drop (String.length lit) s).
Proof.
  intros Hl Hp. rewrite (prefix_split _ _ Hp) at 1. now rewrite scan_app, Hl.
Qed.

Lemma cons_tok_some (t : JSON.token) (r : option (list JSON.token))
    (ts : list JSON.token) :
  JSON.cons_tok t r = Some ts -> exists ts', r = Some ts'.
Proof. destruct r as [ts'|]; [now exists ts' | discriminate]. Qed.

Lemma tokenize_scan (fuel : nat) (s : string) (ts : list JSON.token) :
  JSON.tokenize fuel s = Some ts -> scan Out s = Out.
Proof.
  revert s ts; induction fuel as [|fuel IH]; intros s ts H; [discriminate H|].
  cbn [JSON.tokenize] in H. destruct s as [|c r]; [reflexivity|].
  destruct (JSON.is_ws c) eqn:Ews.
  { cbn [scan]. rewrite (step_ws _ Ews). now apply IH with ts. }
  repeat match type of H with
    | (if Ascii.eqb c ?d then JSON.cons_tok _ _ else _) = _ =>
        let E := fresh "E" in
        destruct (Ascii.eqb c d) eqn:E;
          [ apply cons_tok_some in H as [ts' H];
            cbn [scan]; rewrite (step_eq _ _ E) by reflexivity;
            now apply IH with ts'
          | ]
    end.
  destruct (Ascii.eqb c DQUOTE) eqn:Eq.
  { destruct (JSON.lex_string r) as [[str rest]|] eqn:L; [|discriminate H].
    apply cons_tok_some in H as [ts' H].
    cbn [scan lex_step]. rewrite Eq.
    rewrite (lex_string_scan _ _ _ _ (le_n _) L). now apply IH with ts'. }
  destruct (Ascii.eqb c "-" || JSON.is_digit c) eqn:En.
  { destruct (JSON.lex_number (String c r)) as [[lx rest]|] eqn:L;
      [|discriminate H].
    apply cons_tok_some in H as [ts' H].
    rewrite (lex_number_scan _ _ _ L). now apply IH with ts'. }
  repeat match type of H with
    | (if String.prefix ?lit ?s then JSON.cons_tok _ _ else _) = _ =>
        let E := fresh "E" in
        destruct (String.prefix lit s) eqn:E;
          [ apply cons_tok_some in H as [ts' H];
            rewrite (literal_scan lit _ eq_refl E);
            now apply IH with ts'
          | ]
    end.
  discriminate H.
Qed.

(** [JSON.parse] throws on every text that contains an opening fence. *)
Lemma parse_fence_open (before after : string) :
  JSON.parse (before ++ fence_open ++ after) = None.
Proof.
  unfold JSON.parse.
  destruct (JSON.tokenize _ _) as [ts|] eqn:T; [|reflexivity].
  apply tokenize_scan in T.
  rewrite scan_app, scan_fence_open in T. discriminate T.
Qed.

Lemma parse_empty : JSON.parse EmptyString = None.
Proof. reflexivity. Qed.

(** ** [JSON.parse] never stops for want of fuel *)

Lemma lex_string_shorter (n : nat) (s str rest : string) :
  String.length s <= n ->
  JSON.lex_string s = Some (str, rest) ->
  String.length rest < String.length s.
Proof.
  revert s str rest; induction n as [|n IH]; intros s str rest Hn H;
    destruct s as [|c r]; try discriminate H; simpl in Hn; [lia|].
  cbn [JSON.lex_string] in H. cbn [String.length].
  destruct (Ascii.eqb c DQUOTE).
  { injection H as <- <-. lia. }
  destruct (Ascii.eqb c BACKSLASH).
  - destruct r as [|e r1]; [discriminate H|]. cbn [String.length] in *.
    destruct (Ascii.eqb e "u").
    + destruct r1 as [|h1 [|h2 [|h3 [|h4 r2]]]]; try discriminate H.
      destruct (JSON.hex_val h1); [|discriminate H].
      destruct (JSON.hex_val h2); [|discriminate H].
      destruct (JSON.hex_val h3); [|discriminate H].
      destruct (JSON.hex_val h4); [|discriminate H].
      destruct (JSON.lex_string r2) as [[b r']|] eqn:L; [|discriminate H].
      injection H as <- <-. cbn [String.length] in *.
      assert (String.length r' < String.length r2)
        by (apply IH with (2 := L); lia).
      lia.
    + destruct (JSON.simple_escape e); [|discriminate H].
      destruct (JSON.lex_string r1) as [[b r']|] eqn:L; [|discriminate H].
      injection H as <- <-.
      assert (String.length r' < String.length r1)
        by (apply IH with (2 := L); lia).
      lia.
  - destruct (JSON.is_control c); [discriminate H|].
    destruct (JSON.lex_string r) as [[b r']|] eqn:L; [|discriminate H].
    injection H as <- <-.
    assert (String.length r' < String.length r)
      by (apply IH with (2 := L); lia).
    lia.
Qed.

Lemma span_digits_length (s ds rest : string) :
  JSON.span_digits s = (ds, rest) -> String.length rest <= String.length s.
Proof.
  revert ds; induction s as [|c s IH]; intros ds H; cbn [JSON.span_digits] in H.
  - now injection H as <- <-.
  - destruct (JSON.is_digit c).
    + destruct (JSON.span_digits s) as [ds' rest'].
      injection H as <- <-. cbn [String.length].
      specialize (IH _ eq_refl). lia.
    + now injection H as <- <-.
Qed.

Lemma lex_number_shorter (s lx rest : string) :
  JSON.lex_number s = Some (lx, rest) ->
  String.length rest < String.length s.
Proof.
  unfold JSON.lex_number.
  destruct (JSON.lex_sign s) as [sg r0] eqn:A.
  destruct (JSON.lex_int r0) as [[i r1]|] eqn:B; [|discriminate].
  destruct (JSON.lex_frac r1) as [[f r2]|] eqn:C; [|discriminate].
  destruct (JSON.lex_exp r2) as [[e r3]|] eqn:D; [|discriminate].
  intros [= <- <-].
  assert (Ha : String.length r0 <= String.length s).
  { unfold JSON.lex_sign in A. destruct s as [|c r]; [now injection A as <- <-|].
    destruct (Ascii.eqb c "-"); injection A as <- <-; cbn [String.length]; lia. }
  assert (Hb : String.length r1 < String.length r0).
  { unfold JSON.lex_int in B. destruct r0 as [|c r]; [discriminate B|].
    destruct (Ascii.eqb c "0"); [injection B as <- <-; cbn; lia|].
    destruct (JSON.is_digit c) eqn:Ed; [|discriminate B].
    injection B as B. cbn [JSON.span_digits] in B. rewrite Ed in B.
    destruct (JSON.span_digits r) as [ds' rest'] eqn:S.
    injection B as <- <-. apply span_digits_length in S.
    cbn [String.length]. lia. }
  assert (Hc : String.length r2 <= String.length r1).
  { unfold JSON.lex_frac in C. destruct r1 as [|c r]; [now injection C as <- <-|].
    destruct (Ascii.eqb c "."); [|now injection C as <- <-].
    destruct (JSON.span_digits r) as [ds rest'] eqn:S.
    destruct ds; [discriminate C|]. injection C as <- <-.
    apply span_digits_length in S. cbn [String.length]. lia. }
  assert (Hd : String.length r3 <= String.length r2).
  { unfold JSON.lex_exp in D. destruct r2 as [|c r]; [now injection D as <- <-|].
    destruct (Ascii.eqb c "e" || Ascii.eqb c "E"); [|now injection D as <- <-].
    destruct (match r with EmptyString => _ | String _ _ => _ end)
      as [sg' r'] eqn:G.
    assert (String.length r' <= String.length r).
    { destruct r as [|g r'']; [now injection G as <- <-|].
      destruct (Ascii.eqb g "+" || Ascii.eqb g "-"); injection G as <- <-;
        cbn [String.length]; lia. }
    destruct (JSON.span_digits r') as [ds rest'] eqn:S.
    destruct ds; [discriminate D|]. injection D as <- <-.
    apply span_digits_length in S. cbn [String.length]. lia. }
  lia.
Qed.

Lemma drop_length (k : nat) (s : string) :
  String.length (drop k s) = String.length s - k.
Proof.
  revert s; induction k as [|k IH]; intros s; simpl; [lia|].
  destruct s; simpl; [reflexivity | apply IH].
Qed.

Lemma tokenize_fuel (fuel fuel' : nat) (s : string) :
  String.length s < fuel -> String.length s < fuel' ->
  JSON.tokenize fuel s = JSON.tokenize fuel' s.
Proof.
  revert fuel' s; induction fuel as [|fuel IH]; intros fuel' s H H'; [lia|].
  destruct fuel' as [|fuel']; [lia|].
  cbn [JSON.tokenize]. destruct s as [|c r]; [reflexivity|].
  cbn [String.length] in H, H'.
  assert (Hr : JSON.tokenize fuel r = JSON.tokenize fuel' r)
    by (apply IH; lia).
  assert (Hd : forall k, 0 < k ->
             JSON.tokenize fuel (drop k (String c r))
             = JSON.tokenize fuel' (drop k (String c r))).
  { intros k Hk. apply IH; rewrite drop_length; cbn [String.length]; lia. }
  rewrite Hr, !Hd by lia.
  destruct (JSON.lex_string r) as [[str rest]|] eqn:L.
  - apply (lex_string_shorter _ _ _ _ (le_n _)) in L.
    rewrite (IH fuel' rest) by lia.
    destruct (JSON.lex_number (String c r)) as [[lx rest']|] eqn:N;
      [|reflexivity].
    apply lex_number_shorter in N. cbn [String.length] in N.
    rewrite (IH fuel' rest') by lia. reflexivity.
  - destruct (JSON.lex_number (String c r)) as [[lx rest']|] eqn:N;
      [|reflexivity].
    apply lex_number_shorter in N. cbn [String.length] in N.
    rewrite (IH fuel' rest') by lia. reflexivity.
Qed.

Lemma parse_shorter (fuel : nat) :
  (forall ts v rest,
      JSON.parse_value fuel ts = Some (v, rest) ->
      List.length rest < List.length ts)
  /\ (forall acc ts v rest,
         JSON.parse_elements fuel acc ts = Some (v, rest) ->
         List.length rest < List.length ts)
  /\ (forall acc ts v rest,
         JSON.parse_members fuel acc ts = Some (v, rest) ->
         List.length rest < List.length ts).
Proof.
  induction fuel as [|fuel (IHv & IHe & IHm)];
    [repeat split; intros; discriminate|].
  repeat split; intros *;
    cbn [JSON.parse_value JSON.parse_elements JSON.parse_members];
    intros H; unmatch H; subst;
    repeat match goal with
      | E : JSON.parse_value _ _ = Some _ |- _ => apply IHv in E
      | E : JSON.parse_elements _ _ _ = Some _ |- _ => apply IHe in E
      | E : JSON.parse_members _ _ _ = Some _ |- _ => apply IHm in E
      | E : Some _ = Some _ |- _ => injection E as <- <-
      end;
    cbn [List.length] in *; lia.
Qed.

Lemma parse_value_fuel (fuel : nat) :
  forall fuel',
    (forall ts, List.length ts < fuel -> List.length ts < fuel' ->
                JSON.parse_value fuel ts = JSON.parse_value fuel' ts)
    /\ (forall acc ts, List.length ts < fuel -> List.length ts < fuel' ->
                       JSON.parse_elements fuel acc ts
                       = JSON.parse_elements fuel' acc ts)
    /\ (forall acc ts, List.length ts < fuel -> List.length ts < fuel' ->
                       JSON.parse_members fuel acc ts
                       = JSON.parse_members fuel' acc ts).
Proof.
  induction fuel as [|fuel IH]; intros fuel';
    [repeat split; intros; lia|].
  destruct fuel' as [|fuel']; [repeat split; intros; lia|].
  destruct (IH fuel') as (IHv & IHe & IHm).
  destruct (parse_shorter fuel') as (Sv & _ & _).
  repeat split; intros *; intros H H';
    cbn [JSON.parse_value JSON.parse_elements JSON.parse_members];
    repeat match goal with
      | |- ?x = ?x => reflexivity
      | |- context [JSON.parse_value fuel ?r] =>
          rewrite (IHv r) by (cbn [List.length] in *; lia)
      | |- context [match JSON.parse_value fuel' ?r with _ => _ end] =>
          let E := fresh "E" in
          destruct (JSON.parse_value fuel' r) as [[? ?]|] eqn:E;
          [apply Sv in E|]
      | |- JSON.parse_elements fuel _ _ = _ =>
          apply IHe; cbn [List.length] in *; lia
      | |- JSON.parse_members fuel _ _ = _ =>
          apply IHm; cbn [List.length] in *; lia
      | |- context [match ?x with _ => _ end] => is_var x; destruct x
      end.
Qed.

(** Whatever fuel beyond the length of the text and of its tokens the
    lexer and the parser are given, the result is that of [JSON.parse]. *)
Lemma parse_fuel (n m : nat) (text : string) :
  String.length text < n ->
  (forall ts, JSON.tokenize n text = Some ts -> List.length ts < m) ->
  match JSON.tokenize n text with
  | None => None
  | Some ts =>
      match JSON.parse_value m ts with
      | Some (v, []) => Some v
      | _ => None
      end
  end = JSON.parse text.
Proof.
  intros Hn Hm. unfold JSON.parse.
  rewrite (tokenize_fuel n (S (String.length text))) in * by lia.
  destruct (JSON.tokenize _ text) as [ts|]; [|reflexivity].
  destruct (parse_value_fuel m (S (List.length ts))) as (Hv & _ & _).
  rewrite Hv; [reflexivity | now apply Hm | lia].
Qed.

(** ** The fenced extraction of the two earlier versions *)

Lemma JSON_parse_value (w : world) (text : string) (tr : trace) :
  value_of (fst (JSON_parse w text tr)) = JSON.parse text.
Proof. unfold JSON_parse. now destruct (JSON.parse text). Qed.

Lemma parse_with_block (reply content : string) :
  first_json_block reply = Some content -> JSON.parse reply = None.
Proof.
  intros H. destruct (first_json_block_fence _ _ H) as (b & a & ->).
  apply parse_fence_open.
Qed.

Lemma extract_value (w : world) (reply : string) (tr : trace) :
  value_of (fst (Fundamental.extract w reply tr)) = fenced_parse reply
  /\ value_of (fst (Draft.extract w reply tr)) = fenced_parse reply.
Proof.
  unfold Fundamental.extract, Draft.extract, fenced_parse.
  rewrite match_json_fence_first_block.
  destruct (first_json_block reply) as [g|] eqn:B.
  - destruct g as [|c g]; cbn [nonempty]; rewrite !JSON_parse_value.
    + now rewrite (parse_with_block _ _ B), parse_empty.
    + now split.
  - rewrite !JSON_parse_value. now split.
Qed.

(** C10. In the two earlier versions the record of a reply is extracted
    through the fenced block: the pattern match yields the content of the
    first [```json] block when the reply holds one; the parsed record is
    then [JSON.parse] of that content (and there is none when that
    throws); when the reply holds no block, the whole reply text is
    parsed. *)
Theorem extract_is_fenced_parse (w : world) (reply : string) :
  match_json_fence reply = first_json_block reply
  /\ value_of (fst (run (Fundamental.extract w reply))) = fenced_parse reply
  /\ value_of (fst (run (Draft.extract w reply))) = fenced_parse reply.
Proof.
  split.
  - apply match_json_fence_first_block.
  - unfold run. destruct (extract_value w reply []) as [F D].
    split; [exact F | exact D].
Qed.

(** ** Requests turned away before the guarded block *)

(** C3. A request whose method is not POST is answered 405 with the
    message 'Method Not Allowed'; nothing is parsed and nobody is called:
    the trace of the run is empty. *)
Theorem not_post_405 (w : world) (request : Request) :
  method request <> "POST" ->
  let refusal :=
    (Returns (status_json 405 (message_body "Method Not Allowed")),
     @nil event) in
  run (Technical.handler w request) = refusal
  /\ run (Fundamental.handler w request) = refusal
  /\ run (Draft.handler w request) = refusal.
Proof.
  intros H. apply String.eqb_neq in H.
  unfold Technical.handler, Fundamental.handler, Draft.handler.
  rewrite H. cbn [negb]. now repeat split.
Qed.

Lemma not_post_405_witness :
  run (Technical.handler (mock (Returns (upload_of "en" png)) (Returns "PNG")
                            (Returns (Returns good_reply))) get)
  = (Returns (status_json 405 (message_body "Method Not Allowed")), []).
Proof.
  apply (not_post_405 (mock (Returns (upload_of "en" png)) (Returns "PNG")
                         (Returns (Returns good_reply))) get).
  discriminate.
Defined.

(** C6. A POST request handled while the API key is absent is answered
    500 with a message that is a constant of the version; the trace is
    empty: the body is not parsed and the model is not called. *)
Theorem missing_key_500 (w : world) (request : Request) :
  method request = "POST" ->
  GEMINI_API_KEY w = None ->
  run (Technical.handler w request)
  = (Returns (status_json 500
                (message_body "Server is full, please try again later.")), [])
  /\ run (Fundamental.handler w request)
     = (Returns (status_json 500
                   (message_body "Server is full, please try again later.")),
        [])
  /\ run (Draft.handler w request)
     = (Returns (status_json 500
                   (message_body
                      "GEMINI_API_KEY environment variable is not configured.")),
        []).
Proof.
  intros Hm Hk.
  unfold Technical.handler, Fundamental.handler, Draft.handler.
  rewrite Hm, Hk. now repeat split.
Qed.

Lemma missing_key_500_witness :
  run (Technical.handler no_key (post "en"))
  = (Returns (status_json 500
                (message_body "Server is full, please try again later.")), []).
Proof.
  apply (missing_key_500 no_key (post "en")); reflexivity.
Defined.

(** ** Running a handler under what is known of the world *)

(** ** The upload checks *)

(** C4. A POST request whose parsed upload has no [image] file (the field
    is absent, or its list is empty) is answered 400 with the message
    'No image file uploaded.', and the model is not called. *)
Theorem no_image_400 (w : world) (request : Request)
    (fields : Fields) (files : Files) :
  method request = "POST" ->
  truthy (GEMINI_API_KEY w) = true ->
  form_parse w request = Returns (fields, files) ->
  assoc_last "image" files = None \/ assoc_last "image" files = Some [] ->
  let refusal :=
    Returns (status_json 400 (message_body "No image file uploaded.")) in
  (sent (Technical.handler w request) = refusal
   /\ model_calls (log (Technical.handler w request)) = 0)
  /\ (sent (Fundamental.handler w request) = refusal
      /\ model_calls (log (Fundamental.handler w request)) = 0)
  /\ (busboy w request = Returns tt ->
      sent (Draft.handler w request) = refusal
      /\ model_calls (log (Draft.handler w request)) = 0).
Proof.
  intros Hm Hk Hp Hi. enter Hm Hk.
  destruct Hi as [Hi|Hi]; rewrite Hi; versions; split; reflexivity.
Qed.

Lemma no_image_400_witness :
  sent (Technical.handler
          (mock (Returns ([], [])) (Returns "PNG")
             (Returns (Returns good_reply))) (post "en"))
  = Returns (status_json 400 (message_body "No image file uploaded."))
  /\ model_calls
       (log (Technical.handler
               (mock (Returns ([], [])) (Returns "PNG")
                  (Returns (Returns good_reply))) (post "en"))) = 0.
Proof.
  apply (no_image_400
           (mock (Returns ([], [])) (Returns "PNG")
              (Returns (Returns good_reply))) (post "en") [] []);
    solve [reflexivity | left; reflexivity].
Defined.

(** C5. A POST request whose first [image] file has a type that is a
    string not starting with [image/] is answered 400 with the message
    'Invalid file type. Please upload an image.', and the model is not
    called. *)
Theorem not_an_image_400 (w : world) (request : Request)
    (fields : Fields) (files : Files) (imageFile : File)
    (others : list File) (type : string) :
  method request = "POST" ->
  truthy (GEMINI_API_KEY w) = true ->
  form_parse w request = Returns (fields, files) ->
  assoc_last "image" files = Some (imageFile :: others) ->
  mimetype imageFile = Str type ->
  startsWith type "image/" = false ->
  let refusal :=
    Returns (status_json 400
               (message_body "Invalid file type. Please upload an image.")) in
  (sent (Technical.handler w request) = refusal
   /\ model_calls (log (Technical.handler w request)) = 0)
  /\ (sent (Fundamental.handler w request) = refusal
      /\ model_calls (log (Fundamental.handler w request)) = 0)
  /\ (busboy w request = Returns tt ->
      sent (Draft.handler w request) = refusal
      /\ model_calls (log (Draft.handler w request)) = 0).
Proof.
  intros Hm Hk Hp Hi Ht Hs. enter Hm Hk.
  versions; split; reflexivity.
Qed.

Lemma not_an_image_400_witness :
  sent (Technical.handler
          (mock (Returns (upload_of "en" pdf)) (Returns "PDF")
             (Returns (Returns good_reply))) (post "en"))
  = Returns (status_json 400
               (message_body "Invalid file type. Please upload an image."))
  /\ model_calls
       (log (Technical.handler
               (mock (Returns (upload_of "en" pdf)) (Returns "PDF")
                  (Returns (Returns good_reply))) (post "en"))) = 0.
Proof.
  apply (not_an_image_400
           (mock (Returns (upload_of "en" pdf)) (Returns "PDF")
              (Returns (Returns good_reply))) (post "en")
           (fst (upload_of "en" pdf)) (snd (upload_of "en" pdf))
           pdf [] "application/pdf"); reflexivity.
Defined.

(** C9. A POST request whose first [image] file has a [null] or
    [undefined] type makes the type check itself throw; the outer [catch]
    answers 500 with the text of that error, not the 400 of an invalid
    type, and the model is not called. *)
Theorem null_type_500 (w : world) (request : Request)
    (fields : Fields) (files : Files) (imageFile : File)
    (others : list File) :
  method request = "POST" ->
  truthy (GEMINI_API_KEY w) = true ->
  form_parse w request = Returns (fields, files) ->
  assoc_last "image" files = Some (imageFile :: others) ->
  mimetype imageFile = Null \/ mimetype imageFile = Undefined ->
  let thrown :=
    mkError ("Cannot read properties of "
             ++ match mimetype imageFile with
                | Undefined => "undefined"
                | _ => "null"
                end
             ++ " (reading 'startsWith')") in
  (sent (Technical.handler w request)
   = Returns (status_json 500
                (message_body (Technical.errorMessage request thrown)))
   /\ model_calls (log (Technical.handler w request)) = 0)
  /\ (sent (Fundamental.handler w request)
      = Returns (status_json 500
                   (message_body (Fundamental.errorMessage request thrown)))
      /\ model_calls (log (Fundamental.handler w request)) = 0)
  /\ (busboy w request = Returns tt ->
      sent (Draft.handler w request)
      = Returns (status_json 500 (message_body (Draft.errorMessage thrown)))
      /\ model_calls (log (Draft.handler w request)) = 0).
Proof.
  intros Hm Hk Hp Hi Ht. enter Hm Hk.
  destruct Ht as [Ht|Ht]; rewrite Ht; versions; split; reflexivity.
Qed.

Lemma null_type_500_witness :
  sent (Technical.handler
          (mock (Returns (upload_of "en" untyped)) (Returns "PNG")
             (Returns (Returns good_reply))) (post "en"))
  = Returns (status_json 500
               (message_body
                  "Failed to analyze chart. Error details: Cannot read properties of null (reading 'startsWith')"))
  /\ model_calls
       (log (Technical.handler
               (mock (Returns (upload_of "en" untyped)) (Returns "PNG")
                  (Returns (Returns good_reply))) (post "en"))) = 0.
Proof.
  apply (null_type_500
           (mock (Returns (upload_of "en" untyped)) (Returns "PNG")
              (Returns (Returns good_reply))) (post "en")
           (fst (upload_of "en" untyped)) (snd (upload_of "en" untyped))
           untyped []);
    solve [reflexivity | left; reflexivity].
Defined.

(** ** The reply of the model *)

Lemma placeholder_technical (language : option string) :
  placeholder (Technical.fallback language).
Proof.
  unfold Technical.fallback, placeholder.
  destruct (is_str language "id"); eexists _, _, _; apply and_comm;
    (split; [reflexivity | first [now left | now right]]).
Qed.

Lemma placeholder_fundamental (language : option string) :
  placeholder (Fundamental.fallback language).
Proof.
  unfold Fundamental.fallback, placeholder.
  destruct (is_str language "id"); eexists _, _, _; apply and_comm;
    (split; [reflexivity | first [now left | now right]]).
Qed.

Lemma placeholder_draft : placeholder Draft.fallback.
Proof.
  unfold Draft.fallback, placeholder.
  eexists _, _, _; split; [now left | reflexivity].
Qed.

Lemma extract_throws (w : world) (reply : string) (tr : trace) :
  fenced_parse reply = None ->
  (exists e tr', Fundamental.extract w reply tr = (Throws e, tr'))
  /\ (exists e tr', Draft.extract w reply tr = (Throws e, tr')).
Proof.
  intros H. destruct (extract_value w reply tr) as [F D].
  rewrite H in F, D.
  destruct (Fundamental.extract w reply tr) as [[v|e] tr1];
    destruct (Draft.extract w reply tr) as [[v'|e'] tr2];
    try discriminate F; try discriminate D.
  split; eexists _, _; reflexivity.
Qed.

Lemma extract_returns (w : world) (reply : string) (tr : trace) (v : json) :
  fenced_parse reply = Some v ->
  (exists tr', Fundamental.extract w reply tr = (Returns v, tr'))
  /\ (exists tr', Draft.extract w reply tr = (Returns v, tr')).
Proof.
  intros H. destruct (extract_value w reply tr) as [F D].
  rewrite H in F, D.
  destruct (Fundamental.extract w reply tr) as [[v1|e] tr1];
    destruct (Draft.extract w reply tr) as [[v2|e'] tr2];
    try discriminate F; try discriminate D.
  injection F as ->. injection D as ->.
  split; eexists; reflexivity.
Qed.

(** C1, amended. When the parse of the reply of the model throws (that
    of [JSON.parse] on the whole reply in the current version, that of the
    fenced extraction in the two earlier ones), the failure stays inside:
    the answer is 200 and carries the placeholder record of the version:
    its direction is 'Uncertain' or 'Tidak Pasti', its support and
    resistance are 'N/A', its risk warning is fixed, and its rationale is a
    fixed lead followed by the raw reply. *)
Theorem unparsable_reply_placeholder (w : world) (request : Request)
    (fields : Fields) (files : Files) (imageFile : File)
    (buffer reply : string) :
  method request = "POST" ->
  truthy (GEMINI_API_KEY w) = true ->
  form_parse w request = Returns (fields, files) ->
  valid_upload files imageFile ->
  readFile w (filepath imageFile) = Returns buffer ->
  (forall model req, generateContent w model req = Returns (Returns reply)) ->
  let language := field_or fields "outputLanguage" "en" in
  (JSON.parse reply = None ->
   sent (Technical.handler w request)
   = Returns (status_json 200
                (analysis_body (Technical.fallback language reply)))
   /\ placeholder (Technical.fallback language))
  /\ (fenced_parse reply = None ->
      sent (Fundamental.handler w request)
      = Returns (status_json 200
                   (analysis_body (Fundamental.fallback language reply)))
      /\ placeholder (Fundamental.fallback language))
  /\ (fenced_parse reply = None ->
      busboy w request = Returns tt ->
      sent (Draft.handler w request)
      = Returns (status_json 200 (analysis_body (Draft.fallback reply)))
      /\ placeholder Draft.fallback).
Proof.
  intros Hm Hk Hp Hu Hr Hg language. upload Hu. subst language.
  split; [|split].
  - intros Hj. split; [|apply placeholder_technical].
    enter Hm Hk. unfold JSON_parse. rewrite Hj. reflexivity.
  - intros Hj. split; [|apply placeholder_fundamental].
    enter Hm Hk.
    match goal with |- context [Fundamental.extract w reply ?tr] =>
      destruct (proj1 (extract_throws w reply tr Hj)) as (e & tr' & ->)
    end.
    reflexivity.
  - intros Hj Hb. split; [|apply placeholder_draft].
    enter Hm Hk.
    match goal with |- context [Draft.extract w reply ?tr] =>
      destruct (proj2 (extract_throws w reply tr Hj)) as (e & tr' & ->)
    end.
    reflexivity.
Qed.

Lemma upload_of_valid (language : string) (f : File) (type : string) :
  mimetype f = Str type ->
  startsWith type "image/" = true ->
  valid_upload (snd (upload_of language f)) f.
Proof.
  intros Ht Hs. split; [exists []; reflexivity | exists type; now split].
Defined.

Lemma unparsable_reply_placeholder_witness :
  sent (Technical.handler
          (mock (Returns (upload_of "id" png)) (Returns "PNG")
             (Returns (Returns prose_reply))) (post "en"))
  = Returns
      (status_json 200
         (analysis_body
            (JObj [ ("direction", JStr "Tidak Pasti");
                    ("rationale",
                     JStr ("Gagal mem-parse analisis dari AI. Respon mentah: "
                           ++ prose_reply));
                    ("support", JStr "N/A");
                    ("resistance", JStr "N/A");
                    ("riskWarning",
                     JStr "Selalu berhati-hati. Analisis AI hanya untuk tujuan informasi.") ]))).
Proof.
  refine (proj1 (proj1 (unparsable_reply_placeholder
                          (mock (Returns (upload_of "id" png)) (Returns "PNG")
                             (Returns (Returns prose_reply))) (post "en")
                          (fst (upload_of "id" png)) (snd (upload_of "id" png))
                          png "PNG" prose_reply
                          eq_refl eq_refl eq_refl
                          (upload_of_valid "id" png "image/png"
                             eq_refl eq_refl)
                          eq_refl (fun _ _ => eq_refl)) eq_refl)).
Defined.

(** C1 does not hold as stated: this reply parses, but not to the expected
    record; every version relays what it parsed, and no placeholder is
    sent. *)
Lemma partial_record_relayed :
  let w := mock (Returns (upload_of "en" png)) (Returns "PNG")
             (Returns (Returns partial_reply)) in
  let relayed :=
    Returns (status_json 200
               (analysis_body (JObj [("direction", JStr "Bullish")]))) in
  ~ parsed_as_expected JSON.parse partial_reply
  /\ ~ parsed_as_expected fenced_parse partial_reply
  /\ sent (Technical.handler w (post "en")) = relayed
  /\ sent (Fundamental.handler w (post "en")) = relayed
  /\ sent (Draft.handler w (post "en")) = relayed
  /\ ~ (exists record,
          placeholder record
          /\ relayed
             = Returns (status_json 200
                          (analysis_body (record partial_reply)))).
Proof.
  assert (N : forall v,
             Some (JObj [("direction", JStr "Bullish")]) = Some v ->
             ~ expected_record v).
  { intros v [= <-] E.
    destruct (E "rationale") as [s Hs]; [cbn; auto | discriminate Hs]. }
  repeat split; try reflexivity.
  - intros (v & P & E). exact (N v P E).
  - intros (v & P & E). exact (N v P E).
  - intros (record & (d & l & r & _ & Hr) & E).
    rewrite Hr in E. discriminate E.
Qed.

Lemma answer_200 (a : json) :
  answer_shape (Returns (status_json 200 (analysis_body a))).
Proof. eexists; split; [reflexivity|]. left. split; [reflexivity | now exists a]. Qed.

Lemma answer_message (code : nat) (m : string) :
  code = 400 \/ code = 405 \/ code = 500 ->
  answer_shape (Returns (status_json code (message_body m))).
Proof.
  intros H. eexists; split; [reflexivity|]. right. split; [exact H | now exists m].
Qed.

(** Whatever the world answers, a run ends with an answer of one of the
    two shapes and has called the model at most once. *)
Lemma every_run (w : world) (request : Request) :
  (answer_shape (sent (Technical.handler w request))
   /\ model_calls (log (Technical.handler w request)) <= 1)
  /\ (answer_shape (sent (Fundamental.handler w request))
      /\ model_calls (log (Fundamental.handler w request)) <= 1)
  /\ (answer_shape (sent (Draft.handler w request))
      /\ model_calls (log (Draft.handler w request)) <= 1).
Proof.
  split; [|split]; all_cases;
    (split;
     [ first [ apply answer_200 | apply answer_message; auto ]
     | count_calls; lia ]).
Qed.

(** C2. A well-formed POST request (credential set, an upload whose first
    [image] file has an image type, the file read) whose reply parses is
    answered 200 with the body [{ analysis: record }], where [record] is
    the value parsed from the reply; and every answer of every run is
    either of that shape or a 400, 405 or 500 with the body
    [{ message }]. *)
Theorem parsed_reply_200 (w : world) (request : Request)
    (fields : Fields) (files : Files) (imageFile : File)
    (buffer reply : string) (record : json) :
  method request = "POST" ->
  truthy (GEMINI_API_KEY w) = true ->
  form_parse w request = Returns (fields, files) ->
  valid_upload files imageFile ->
  readFile w (filepath imageFile) = Returns buffer ->
  (forall model req, generateContent w model req = Returns (Returns reply)) ->
  let success :=
    Returns (status_json 200 (JObj [("analysis", record)])) in
  ((JSON.parse reply = Some record ->
    sent (Technical.handler w request) = success)
   /\ (fenced_parse reply = Some record ->
       sent (Fundamental.handler w request) = success)
   /\ (fenced_parse reply = Some record ->
       busboy w request = Returns tt ->
       sent (Draft.handler w request) = success))
  /\ (forall (w' : world) (request' : Request),
        answer_shape (sent (Technical.handler w' request'))
        /\ answer_shape (sent (Fundamental.handler w' request'))
        /\ answer_shape (sent (Draft.handler w' request'))).
Proof.
  intros Hm Hk Hp Hu Hr Hg success. upload Hu. subst success.
  split; [split; [|split]|].
  - intros Hj. enter Hm Hk. unfold JSON_parse. rewrite Hj. reflexivity.
  - intros Hj. enter Hm Hk.
    match goal with |- context [Fundamental.extract w reply ?tr] =>
      destruct (proj1 (extract_returns w reply tr record Hj)) as (tr' & ->)
    end.
    reflexivity.
  - intros Hj Hb. enter Hm Hk.
    match goal with |- context [Draft.extract w reply ?tr] =>
      destruct (proj2 (extract_returns w reply tr record Hj)) as (tr' & ->)
    end.
    reflexivity.
  - intros w' request'.
    destruct (every_run w' request') as [[T _] [[F _] [D _]]]. auto.
Qed.

Lemma parsed_reply_200_witness :
  sent (Fundamental.handler
          (mock (Returns (upload_of "en" png)) (Returns "PNG")
             (Returns (Returns fenced_reply))) (post "en"))
  = Returns (status_json 200 (JObj [("analysis", good_record)]))
  /\ expected_record good_record.
Proof.
  split.
  - refine (proj1 (proj2 (proj1 (parsed_reply_200
                          (mock (Returns (upload_of "en" png)) (Returns "PNG")
                             (Returns (Returns fenced_reply))) (post "en")
                          (fst (upload_of "en" png)) (snd (upload_of "en" png))
                          png "PNG" fenced_reply good_record
                          eq_refl eq_refl eq_refl
                          (upload_of_valid "en" png "image/png"
                             eq_refl eq_refl)
                          eq_refl (fun _ _ => eq_refl)))) eq_refl).
  - intros k [<-|[<-|[<-|[<-|[<-|[]]]]]]; eexists; reflexivity.
Defined.

(** ** One call of the model *)

(** C8 does not hold as stated: here the request passes the method, the
    credential and the upload checks, the file cannot be read, and the
    model is never called. *)
Lemma checks_passed_no_call :
  let w := mock (Returns (upload_of "en" png))
             (Throws (mkError "ENOENT: no such file or directory"))
             (Returns (Returns good_reply)) in
  method (post "en") = "POST"
  /\ truthy (GEMINI_API_KEY w) = true
  /\ form_parse w (post "en") = Returns (upload_of "en" png)
  /\ valid_upload (snd (upload_of "en" png)) png
  /\ model_calls (log (Technical.handler w (post "en"))) = 0
  /\ model_calls (log (Technical.handler w (post "en"))) <> 1.
Proof.
  repeat split; try reflexivity; try discriminate.
  - now exists [].
  - now exists "image/png".
Qed.

(** C8, amended. Every run calls the model at most once; it calls it
    exactly once, whatever the model answers, when the request passes the
    method, credential and upload checks and the uploaded file is read. *)
Theorem model_called_once (w : world) (request : Request) :
  (model_calls (log (Technical.handler w request)) <= 1
   /\ model_calls (log (Fundamental.handler w request)) <= 1
   /\ model_calls (log (Draft.handler w request)) <= 1)
  /\ forall (fields : Fields) (files : Files) (imageFile : File)
       (buffer : string),
       method request = "POST" ->
       truthy (GEMINI_API_KEY w) = true ->
       form_parse w request = Returns (fields, files) ->
       valid_upload files imageFile ->
       readFile w (filepath imageFile) = Returns buffer ->
       model_calls (log (Technical.handler w request)) = 1
       /\ model_calls (log (Fundamental.handler w request)) = 1
       /\ (busboy w request = Returns tt ->
           model_calls (log (Draft.handler w request)) = 1).
Proof.
  split.
  - destruct (every_run w request) as [[_ T] [[_ F] [_ D]]]. auto.
  - intros fields files imageFile buffer Hm Hk Hp Hu Hr. upload Hu.
    enter Hm Hk. unfold Fundamental.extract, Draft.extract, JSON_parse.
    versions; repeat (mstep; world_case); mstep;
      cbv beta iota delta [nonempty]; reflexivity.
Qed.

Lemma model_called_once_witness :
  model_calls
    (log (Technical.handler
            (mock (Returns (upload_of "en" png)) (Returns "PNG")
               (Throws (mkError "fetch failed"))) (post "en"))) = 1.
Proof.
  refine (proj1 (proj2 (model_called_once
                   (mock (Returns (upload_of "en" png)) (Returns "PNG")
                      (Throws (mkError "fetch failed"))) (post "en"))
                   (fst (upload_of "en" png)) (snd (upload_of "en" png))
                   png "PNG" eq_refl eq_refl eq_refl
                   (upload_of_valid "en" png "image/png" eq_refl eq_refl)
                   eq_refl)).
Defined.

(** * Further properties *)

(** ** Substrings *)

Lemma prefix_here (p s : string) : String.prefix p (p ++ s) = true.
Proof.
  induction p as [|a p IH]; simpl.
  - now destruct s.
  - destruct (ascii_dec a a); [assumption | congruence].
Qed.

Lemma prefix_longer (p s t : string) :
  String.prefix p s = true -> String.prefix p (s ++ t) = true.
Proof.
  revert s; induction p as [|a p IH]; intros s H.
  - now destruct (s ++ t).
  - destruct s as [|b s]; simpl in H; [discriminate|]. simpl.
    destruct (ascii_dec a b); [now apply IH | discriminate].
Qed.

Lemma string_app_assoc (a b c : string) : (a ++ b) ++ c = a ++ b ++ c.
Proof.
  induction a as [|x a IH]; simpl; [reflexivity | now rewrite IH].
Qed.

Lemma drop_app (a b : string) : drop (String.length a) (a ++ b) = b.
Proof. induction a as [|x a IH]; simpl; [reflexivity | exact IH]. Qed.

(** [s.includes(p)] holds exactly when [p] occurs somewhere in [s]. *)
Lemma includes_spec (s p : string) :
  includes s p = true <-> exists a b, s = a ++ p ++ b.
Proof.
  split.
  - induction s as [|c s IH]; cbn [includes].
    + destruct (String.prefix p EmptyString) eqn:E; [|discriminate].
      intros _. exists EmptyString, (drop (String.length p) EmptyString).
      now apply prefix_split.
    + destruct (String.prefix p (String c s)) eqn:E.
      * intros _. exists EmptyString, (drop (String.length p) (String c s)).
        now apply prefix_split.
      * intros H. destruct (IH H) as (a & b & ->).
        now exists (String c a), b.
  - intros (a & b & ->). induction a as [|c a IH].
    + cbn [append]. destruct (p ++ b) eqn:E; cbn [includes];
        rewrite <- E, prefix_here; reflexivity.
    + cbn [append includes]. rewrite IH. now destruct (String.prefix _ _).
Qed.

Lemma includes_tail (c : ascii) (s p : string) :
  includes (String c s) p = false ->
  String.prefix p (String c s) = false /\ includes s p = false.
Proof.
  cbn [includes]. destruct (String.prefix p (String c s)); [discriminate|].
  now split.
Qed.

(** What precedes the first occurrence does not contain the pattern. *)
Lemma split_at_first_minimal (p s before after : string) :
  p <> EmptyString ->
  split_at_first p s = Some (before, after) ->
  includes before p = false.
Proof.
  intros Hp. revert before; induction s as [|c s IH]; intros before H;
    cbn [split_at_first] in H.
  - destruct (String.prefix p EmptyString); [|discriminate].
    injection H as <- <-. now destruct p.
  - destruct (String.prefix p (String c s)) eqn:E.
    + injection H as <- <-. now destruct p.
    + destruct (split_at_first p s) as [[b a]|] eqn:S; [|discriminate].
      injection H as <- <-. cbn [includes]. rewrite (IH _ eq_refl).
      destruct (String.prefix p (String c b)) eqn:E'; [|reflexivity].
      apply split_at_first_sound in S. subst s.
      apply (prefix_longer _ _ (p ++ a)) in E'. cbn [append] in E'. congruence.
Qed.

(** ** The fence pattern, both ways *)

(** A fence does not overlap itself: it cannot start inside a text that
    does not hold it and end inside a copy of itself that follows. *)
Lemma fence_open_no_overlap (b rest : string) :
  b <> EmptyString ->
  String.prefix fence_open b = false ->
  String.prefix fence_open (b ++ fence_open ++ rest) = false.
Proof.
  intros Hb Hp.
  destruct (String.prefix fence_open (b ++ fence_open ++ rest)) eqn:E;
    [|reflexivity].
  apply prefix_split in E. exfalso.
  destruct b as [|c1 b]; [now apply Hb|].
  do 7 (destruct b as [|? b]; [discriminate E|]).
  cbn in E. injection E as -> -> -> -> -> -> -> ->.
  destruct b; vm_compute in Hp; discriminate Hp.
Qed.

Lemma fence_close_no_overlap (b rest : string) :
  b <> EmptyString ->
  String.prefix fence_close b = false ->
  String.prefix fence_close (b ++ fence_close ++ rest) = false.
Proof.
  intros Hb Hp.
  destruct (String.prefix fence_close (b ++ fence_close ++ rest)) eqn:E;
    [|reflexivity].
  apply prefix_split in E. exfalso.
  destruct b as [|c1 b]; [now apply Hb|].
  do 3 (destruct b as [|? b]; [discriminate E|]).
  cbn in E. injection E as -> -> -> ->.
  destruct b; vm_compute in Hp; discriminate Hp.
Qed.

Lemma split_at_first_fence (p before rest : string) :
  (forall b r, b <> EmptyString -> String.prefix p b = false ->
               String.prefix p (b ++ p ++ r) = false) ->
  includes before p = false ->
  split_at_first p (before ++ p ++ rest) = Some (before, rest).
Proof.
  intros Hno. induction before as [|c b IH]; intros H.
  - cbn [append]. destruct (p ++ rest) eqn:E; cbn [split_at_first];
      rewrite <- E, prefix_here, drop_app; reflexivity.
  - apply includes_tail in H as [Hp Hb].
    cbn [append split_at_first].
    change (String c (b ++ p ++ rest)) with (String c b ++ p ++ rest).
    rewrite Hno by (assumption || discriminate).
    cbn [append]. now rewrite (IH Hb).
Qed.

(** X1. The fence pattern gives back what was wrapped: after any text
    without an opening fence, a block whose content has no closing fence
    is found and its content is captured, whatever follows. *)
Theorem fence_round_trip (before content after : string) :
  includes before fence_open = false ->
  includes content fence_close = false ->
  match_json_fence (before ++ fence_open ++ content ++ fence_close ++ after)
  = Some content.
Proof.
  intros Hb Hc. rewrite match_json_fence_first_block. unfold first_json_block.
  rewrite (split_at_first_fence _ _ _ fence_open_no_overlap Hb).
  now rewrite (split_at_first_fence _ _ _ fence_close_no_overlap Hc).
Qed.

Lemma fence_round_trip_witness :
  match_json_fence fenced_reply = Some good_reply.
Proof.
  exact (fence_round_trip ("Here is the analysis:" ++ nl) good_reply
           (nl ++ "Trade safely.") eq_refl eq_refl).
Defined.

(** X2. What the fence pattern captures stands in the reply between the
    first opening fence and the first closing fence after it: nothing
    before it holds an opening fence, and the capture holds no closing
    fence. *)
Theorem fence_match_sound (reply content : string) :
  match_json_fence reply = Some content ->
  exists before after,
    reply = before ++ fence_open ++ content ++ fence_close ++ after
    /\ includes before fence_open = false
    /\ includes content fence_close = false.
Proof.
  rewrite match_json_fence_first_block. unfold first_json_block.
  destruct (split_at_first fence_open reply) as [[b a]|] eqn:O; [|discriminate].
  destruct (split_at_first fence_close a) as [[c r]|] eqn:C; [|discriminate].
  intros [= <-]. exists b, r. repeat split.
  - apply split_at_first_sound in O, C. now subst.
  - now apply (split_at_first_minimal fence_open reply b a).
  - now apply (split_at_first_minimal fence_close a c r).
Qed.

Lemma fence_match_sound_witness :
  exists before after,
    fenced_reply = before ++ fence_open ++ good_reply ++ fence_close ++ after
    /\ includes before fence_open = false
    /\ includes good_reply fence_close = false.
Proof. exact (fence_match_sound fenced_reply good_reply eq_refl). Defined.

(** ** Fenced replies *)

Lemma fenced_parse_block (before content after : string) :
  includes before fence_open = false ->
  includes content fence_close = false ->
  fenced_parse (before ++ fence_open ++ content ++ fence_close ++ after)
  = JSON.parse content.
Proof.
  intros Hb Hc. unfold fenced_parse, first_json_block.
  rewrite (split_at_first_fence _ _ _ fence_open_no_overlap Hb).
  now rewrite (split_at_first_fence _ _ _ fence_close_no_overlap Hc).
Qed.

(** X3. The two earlier versions accept a record wrapped in a fenced
    block with prose around it: the answer is 200 with the record parsed
    from the content of the block. *)
Theorem fenced_reply_accepted (w : world) (request : Request)
    (fields : Fields) (files : Files) (imageFile : File)
    (buffer before content after : string) (record : json) :
  method request = "POST" ->
  truthy (GEMINI_API_KEY w) = true ->
  form_parse w request = Returns (fields, files) ->
  valid_upload files imageFile ->
  readFile w (filepath imageFile) = Returns buffer ->
  (forall model req,
      generateContent w model req
      = Returns (Returns (before ++ fence_open ++ content ++ fence_close
                          ++ after))) ->
  includes before fence_open = false ->
  includes content fence_close = false ->
  JSON.parse content = Some record ->
  sent (Fundamental.handler w request)
  = Returns (status_json 200 (JObj [("analysis", record)]))
  /\ (busboy w request = Returns tt ->
      sent (Draft.handler w request)
      = Returns (status_json 200 (JObj [("analysis", record)]))).
Proof.
  intros Hm Hk Hp Hu Hr Hg Hb Hc Hj. upload Hu.
  assert (Hf : fenced_parse (before ++ fence_open ++ content ++ fence_close
                             ++ after) = Some record)
    by (now rewrite fenced_parse_block).
  split; [|intros Hbb]; enter Hm Hk.
  - match goal with |- context [Fundamental.extract w ?r ?tr] =>
      destruct (proj1 (extract_returns w r tr record Hf)) as (tr' & ->)
    end.
    reflexivity.
  - match goal with |- context [Draft.extract w ?r ?tr] =>
      destruct (proj2 (extract_returns w r tr record Hf)) as (tr' & ->)
    end.
    reflexivity.
Qed.

Lemma fenced_reply_accepted_witness :
  sent (Fundamental.handler
          (mock (Returns (upload_of "en" png)) (Returns "PNG")
             (Returns (Returns fenced_reply))) (post "en"))
  = Returns (status_json 200 (JObj [("analysis", good_record)])).
Proof.
  refine (proj1 (fenced_reply_accepted
                   (mock (Returns (upload_of "en" png)) (Returns "PNG")
                      (Returns (Returns fenced_reply))) (post "en")
                   (fst (upload_of "en" png)) (snd (upload_of "en" png))
                   png "PNG" ("Here is the analysis:" ++ nl) good_reply
                   (nl ++ "Trade safely.") good_record
                   eq_refl eq_refl eq_refl
                   (upload_of_valid "en" png "image/png" eq_refl eq_refl)
                   eq_refl (fun _ _ => eq_refl) eq_refl eq_refl eq_refl)).
Defined.

(** X4. The current version does not look for a fence: a reply that
    holds an opening fence anywhere is answered with the placeholder. *)
Theorem fenced_reply_placeholder (w : world) (request : Request)
    (fields : Fields) (files : Files) (imageFile : File)
    (buffer before after : string) :
  method request = "POST" ->
  truthy (GEMINI_API_KEY w) = true ->
  form_parse w request = Returns (fields, files) ->
  valid_upload files imageFile ->
  readFile w (filepath imageFile) = Returns buffer ->
  (forall model req,
      generateContent w model req
      = Returns (Returns (before ++ fence_open ++ after))) ->
  sent (Technical.handler w request)
  = Returns
      (status_json 200
         (analysis_body
            (Technical.fallback (field_or fields "outputLanguage" "en")
               (before ++ fence_open ++ after)))).
Proof.
  intros Hm Hk Hp Hu Hr Hg. upload Hu. enter Hm Hk.
  unfold JSON_parse. rewrite parse_fence_open. reflexivity.
Qed.

Lemma fenced_reply_placeholder_witness :
  sent (Technical.handler
          (mock (Returns (upload_of "en" png)) (Returns "PNG")
             (Returns (Returns fenced_reply))) (post "en"))
  = Returns
      (status_json 200
         (analysis_body (Technical.fallback (Some "en") fenced_reply))).
Proof.
  refine (fenced_reply_placeholder
            (mock (Returns (upload_of "en" png)) (Returns "PNG")
               (Returns (Returns fenced_reply))) (post "en")
            (fst (upload_of "en" png)) (snd (upload_of "en" png))
            png "PNG" ("Here is the analysis:" ++ nl)
            (good_reply ++ fence_close ++ nl ++ "Trade safely.")
            eq_refl eq_refl eq_refl
            (upload_of_valid "en" png "image/png" eq_refl eq_refl)
            eq_refl (fun _ _ => eq_refl)).
Defined.

(** ** Before the guarded block *)

(** X5. A falsy credential, absent or the empty string, stops a POST
    before anything else happens: the static 500 and an empty trace. *)
Theorem falsy_key_500 (w : world) (request : Request) :
  method request = "POST" ->
  truthy (GEMINI_API_KEY w) = false ->
  run (Technical.handler w request)
  = (Returns (status_json 500
                (message_body "Server is full, please try again later.")), [])
  /\ run (Fundamental.handler w request)
     = (Returns (status_json 500
                   (message_body "Server is full, please try again later.")),
        [])
  /\ run (Draft.handler w request)
     = (Returns (status_json 500
                   (message_body
                      "GEMINI_API_KEY environment variable is not configured.")),
        []).
Proof.
  intros Hm Hk. handlers. rewrite Hm, Hk. now repeat split.
Qed.

Lemma falsy_key_500_witness :
  run (Technical.handler empty_key (post "en"))
  = (Returns (status_json 500
                (message_body "Server is full, please try again later.")), []).
Proof. apply (falsy_key_500 empty_key (post "en")); reflexivity. Defined.

(** X14. In the draft a failure of the busboy set-up ends the run: the
    body is not parsed, and the answer is the 500 of the outer [catch]. *)
Theorem busboy_failure_500 (w : world) (request : Request) (e : js_error) :
  method request = "POST" ->
  truthy (GEMINI_API_KEY w) = true ->
  busboy w request = Throws e ->
  run (Draft.handler w request)
  = (Returns (status_json 500
                (message_body
                   ("Failed to analyze chart. Please check the image and try again. Error: "
                    ++ message e))),
     [EvBusboy; EvConsoleError "Error in analyze-chart API:" e]).
Proof. intros Hm Hk Hb. enter Hm Hk. reflexivity. Qed.

Lemma busboy_failure_500_witness :
  run (Draft.handler no_busboy (post "en"))
  = (Returns (status_json 500
                (message_body
                   "Failed to analyze chart. Please check the image and try again. Error: Missing Content-Type")),
     [EvBusboy;
      EvConsoleError "Error in analyze-chart API:"
        (mkError "Missing Content-Type")]).
Proof.
  apply (busboy_failure_500 no_busboy (post "en")
           (mkError "Missing Content-Type")); reflexivity.
Defined.

(** ** Every run takes a path of the table *)

Lemma extract_fence_text (w : world) (reply : string) :
  Fundamental.extract w reply = JSON_parse w (fence_text reply)
  /\ Draft.extract w reply = JSON_parse w (fence_text reply).
Proof.
  unfold Fundamental.extract, Draft.extract, fence_text.
  destruct (match_json_fence reply) as [g|]; [|now split].
  now destruct (nonempty g).
Qed.

Ltac path_case :=
  match goal with
  | |- context [String.eqb (method ?r) "POST"] =>
      destruct (String.eqb (method r) "POST") eqn:?
  | |- context [truthy (GEMINI_API_KEY ?w)] =>
      destruct (truthy (GEMINI_API_KEY w)) eqn:?
  | |- context [busboy ?w ?r] => destruct (busboy w r) as [[]|?] eqn:?
  | |- context [form_parse ?w ?r] =>
      destruct (form_parse w r) as [[? ?]|?] eqn:?
  | |- context [assoc_last "image" ?f] =>
      destruct (assoc_last "image" f) as [[|? ?]|] eqn:?
  | |- context [call_startsWith (mimetype ?f)] =>
      destruct (mimetype f) eqn:?; cbv beta iota delta [call_startsWith]
  | |- context [startsWith ?s "image/"] =>
      destruct (startsWith s "image/") eqn:?
  | |- context [readFile ?w ?p] => destruct (readFile w p) eqn:?
  | |- context [generateContent ?w ?m ?r] =>
      destruct (generateContent w m r) as [[?|?]|?] eqn:?
  | |- context [Fundamental.extract ?w ?t] =>
      rewrite (proj1 (extract_fence_text w t)); unfold JSON_parse
  | |- context [Draft.extract ?w ?t] =>
      rewrite (proj2 (extract_fence_text w t)); unfold JSON_parse
  | |- context [JSON.parse ?t] => destruct (JSON.parse t) eqn:?
  end.

Ltac all_paths v :=
  handlers; unfold JSON_parse;
  repeat (mstep'; path_case); mstep'; path_leaf v.

(** Every run of every version takes one of the paths of the table. *)
Lemma technical_path (w : world) (request : Request) :
  path technical w request
    (sent (Technical.handler w request)) (log (Technical.handler w request)).
Proof. all_paths technical. Qed.

Lemma fundamental_path (w : world) (request : Request) :
  path fundamental w request
    (sent (Fundamental.handler w request))
    (log (Fundamental.handler w request)).
Proof. all_paths fundamental. Qed.

Lemma draft_path (w : world) (request : Request) :
  path draft w request
    (sent (Draft.handler w request)) (log (Draft.handler w request)).
Proof. all_paths draft. Qed.

(** The same argument along the paths of each version. *)
Ltac three_paths w request tac :=
  split;
  [ by_path technical_path Technical.handler w request; tac
  | split;
    [ by_path fundamental_path Fundamental.handler w request; tac
    | by_path draft_path Draft.handler w request; tac ] ].

(** ** What a status tells *)

(** X6. A 405 is sent exactly when the method is not POST. *)
Theorem status_405_iff (w : world) (request : Request) :
  (status_of (sent (Technical.handler w request)) = Some 405
   <-> method request <> "POST")
  /\ (status_of (sent (Fundamental.handler w request)) = Some 405
      <-> method request <> "POST")
  /\ (status_of (sent (Draft.handler w request)) = Some 405
      <-> method request <> "POST").
Proof.
  three_paths w request
    ltac:(let S := fresh "S" in
          split; intros S;
          [ try discriminate S; assumption
          | first [reflexivity | contradiction] ]).
Qed.

Lemma status_405_iff_witness :
  status_of (sent (Technical.handler sunny get)) = Some 405.
Proof.
  apply (proj2 (proj1 (status_405_iff sunny get))). discriminate.
Defined.

(** X8. A 400 is only sent for a POST with the credential set whose body
    was parsed and whose upload fails one of the two checks. *)
Theorem status_400_only_for_upload (w : world) (request : Request) :
  (status_of (sent (Technical.handler w request)) = Some 400 ->
   method request = "POST" /\ truthy (GEMINI_API_KEY w) = true
   /\ exists fields files,
        form_parse w request = Returns (fields, files)
        /\ upload_refused files)
  /\ (status_of (sent (Fundamental.handler w request)) = Some 400 ->
      method request = "POST" /\ truthy (GEMINI_API_KEY w) = true
      /\ exists fields files,
           form_parse w request = Returns (fields, files)
           /\ upload_refused files)
  /\ (status_of (sent (Draft.handler w request)) = Some 400 ->
      method request = "POST" /\ truthy (GEMINI_API_KEY w) = true
      /\ exists fields files,
           form_parse w request = Returns (fields, files)
           /\ upload_refused files).
Proof.
  three_paths w request
    ltac:(let S := fresh "S" in
          intros S; try discriminate S;
          (split; [assumption | split; [assumption|]]);
          eexists _, _; (split; [eassumption|]);
          unfold upload_refused; eauto 8).
Qed.

Lemma status_400_only_for_upload_witness :
  method (post "en") = "POST"
  /\ truthy (GEMINI_API_KEY (mock (Returns (upload_of "en" pdf))
                               (Returns "PDF")
                               (Returns (Returns good_reply)))) = true
  /\ exists fields files,
       form_parse (mock (Returns (upload_of "en" pdf)) (Returns "PDF")
                     (Returns (Returns good_reply))) (post "en")
       = Returns (fields, files)
       /\ upload_refused files.
Proof.
  apply (proj1 (status_400_only_for_upload
                  (mock (Returns (upload_of "en" pdf)) (Returns "PDF")
                     (Returns (Returns good_reply))) (post "en"))).
  reflexivity.
Defined.

(** X12. The answer is 200 exactly when the model was called and answered
    that call with a text, whatever the text. *)
Theorem status_200_iff_replied (w : world) (request : Request) :
  (status_of (sent (Technical.handler w request)) = Some 200
   <-> model_replied w (log (Technical.handler w request)))
  /\ (status_of (sent (Fundamental.handler w request)) = Some 200
      <-> model_replied w (log (Fundamental.handler w request)))
  /\ (status_of (sent (Draft.handler w request)) = Some 200
      <-> model_replied w (log (Draft.handler w request))).
Proof.
  three_paths w request
    ltac:(let S := fresh "S" in
          let I := fresh "I" in
          let G := fresh "G" in
          split;
          [ intros S; try discriminate S;
            eexists _, _, _; (split; [|eassumption]);
            show_trace; auto 8
          | intros (? & ? & ? & I & G); try reflexivity; exfalso;
            in_trace I;
            repeat match goal with
              | H : _ \/ _ |- _ => destruct H
              end;
            match goal with
            | H : generateContent _ _ _ = _,
              G : generateContent _ _ _ = Returns (Returns _) |- _ =>
                discriminate (eq_trans (eq_sym H) G)
            end ]).
Qed.

Lemma status_200_iff_replied_witness :
  status_of
    (sent (Technical.handler
             (mock (Returns (upload_of "en" png)) (Returns "PNG")
                (Returns (Returns prose_reply))) (post "en")))
  = Some 200.
Proof.
  apply (proj2 (proj1 (status_200_iff_replied
                         (mock (Returns (upload_of "en" png)) (Returns "PNG")
                            (Returns (Returns prose_reply))) (post "en")))).
  exists Technical.model, sunny_request, prose_reply. split.
  - vm_compute. right. right. left. reflexivity.
  - reflexivity.
Defined.

(** X13. A 500 sent while the credential is set echoes an error that the
    run has logged under 'Error in analyze-chart API:'. *)
Theorem error_echoed_is_logged (w : world) (request : Request) :
  truthy (GEMINI_API_KEY w) = true ->
  (status_of (sent (Technical.handler w request)) = Some 500 ->
   exists e,
     In (EvConsoleError "Error in analyze-chart API:" e)
        (log (Technical.handler w request))
     /\ sent (Technical.handler w request)
        = Returns (status_json 500
                     (message_body (Technical.errorMessage request e))))
  /\ (status_of (sent (Fundamental.handler w request)) = Some 500 ->
      exists e,
        In (EvConsoleError "Error in analyze-chart API:" e)
           (log (Fundamental.handler w request))
        /\ sent (Fundamental.handler w request)
           = Returns (status_json 500
                        (message_body (Fundamental.errorMessage request e))))
  /\ (status_of (sent (Draft.handler w request)) = Some 500 ->
      exists e,
        In (EvConsoleError "Error in analyze-chart API:" e)
           (log (Draft.handler w request))
        /\ sent (Draft.handler w request)
           = Returns (status_json 500 (message_body (Draft.errorMessage e)))).
Proof.
  intros Hkey.
  three_paths w request
    ltac:(let S := fresh "S" in
          intros S; try discriminate S; try congruence;
          eexists; (split; [|reflexivity]);
          show_trace; auto 8).
Qed.

Lemma error_echoed_is_logged_witness :
  exists e,
    In (EvConsoleError "Error in analyze-chart API:" e)
       (log (Technical.handler
               (mock (Returns (upload_of "en" png)) (Returns "PNG")
                  (Throws (mkError "fetch failed"))) (post "en")))
    /\ sent (Technical.handler
               (mock (Returns (upload_of "en" png)) (Returns "PNG")
                  (Throws (mkError "fetch failed"))) (post "en"))
       = Returns (status_json 500
                    (message_body
                       (Technical.errorMessage (post "en") e))).
Proof.
  apply (proj1 (error_echoed_is_logged
                  (mock (Returns (upload_of "en" png)) (Returns "PNG")
                     (Throws (mkError "fetch failed"))) (post "en")
                  eq_refl)).
  reflexivity.
Defined.

(** ** What a trace tells *)

(** X7. The body is parsed exactly for a POST with the credential set
    (in the draft: and with busboy set up). *)
Theorem body_parsed_iff_entered (w : world) (request : Request) :
  (In EvFormParse (log (Technical.handler w request))
   <-> method request = "POST" /\ truthy (GEMINI_API_KEY w) = true)
  /\ (In EvFormParse (log (Fundamental.handler w request))
      <-> method request = "POST" /\ truthy (GEMINI_API_KEY w) = true)
  /\ (In EvFormParse (log (Draft.handler w request))
      <-> method request = "POST" /\ truthy (GEMINI_API_KEY w) = true
          /\ busboy w request = Returns tt).
Proof.
  three_paths w request
    ltac:(let I := fresh "I" in
          split; intros I;
          [ in_trace I; repeat split; auto
          | show_trace; auto 8; exfalso;
            repeat match type of I with
              | _ /\ _ => let J := fresh "J" in destruct I as [J I]
              end;
            congruence ]).
Qed.

Lemma body_parsed_iff_entered_witness :
  In EvFormParse (log (Technical.handler sunny (post "en"))).
Proof.
  apply (proj2 (proj1 (body_parsed_iff_entered sunny (post "en")))).
  split; reflexivity.
Defined.

(** X9. A file is read from disk only when it is the first [image] file
    of the parsed upload and its type starts with [image/]. *)
Theorem file_read_only_if_image (w : world) (request : Request)
    (path : string) :
  (In (EvReadFile path) (log (Technical.handler w request)) ->
   exists fields files imageFile,
     form_parse w request = Returns (fields, files)
     /\ valid_upload files imageFile /\ path = filepath imageFile)
  /\ (In (EvReadFile path) (log (Fundamental.handler w request)) ->
      exists fields files imageFile,
        form_parse w request = Returns (fields, files)
        /\ valid_upload files imageFile /\ path = filepath imageFile)
  /\ (In (EvReadFile path) (log (Draft.handler w request)) ->
      exists fields files imageFile,
        form_parse w request = Returns (fields, files)
        /\ valid_upload files imageFile /\ path = filepath imageFile).
Proof.
  three_paths w request
    ltac:(let I := fresh "I" in
          intros I;
          try change (prelude technical) with (@nil event) in I;
          try change (prelude fundamental) with (@nil event) in I;
          try change (prelude draft) with [EvBusboy] in I;
          cbn [In app caught snd] in I;
          repeat match type of I with
            | _ \/ _ => destruct I as [I|I]
            | False => destruct I
            | _ = _ => first [discriminate I | injection I as <-]
            end;
          eexists _, _, _; (split; [eassumption|]);
          (split; [|reflexivity]); unfold valid_upload; eauto 8).
Qed.

Lemma file_read_only_if_image_witness :
  exists fields files imageFile,
    form_parse sunny (post "en") = Returns (fields, files)
    /\ valid_upload files imageFile /\ "/tmp/upload-1" = filepath imageFile.
Proof.
  apply (proj1 (file_read_only_if_image sunny (post "en") "/tmp/upload-1")).
  vm_compute. right. left. reflexivity.
Defined.

(** X10. The model is never called unless the request is a POST, the
    credential is set, the upload passed both checks and the file was
    read. *)
Theorem model_called_only_after_checks (w : world) (request : Request) :
  (model_calls (log (Technical.handler w request)) <> 0 ->
   method request = "POST" /\ truthy (GEMINI_API_KEY w) = true
   /\ upload_read w request)
  /\ (model_calls (log (Fundamental.handler w request)) <> 0 ->
      method request = "POST" /\ truthy (GEMINI_API_KEY w) = true
      /\ upload_read w request)
  /\ (model_calls (log (Draft.handler w request)) <> 0 ->
      method request = "POST" /\ truthy (GEMINI_API_KEY w) = true
      /\ upload_read w request).
Proof.
  three_paths w request
    ltac:(let S := fresh "S" in
          intros S; try (exfalso; apply S; reflexivity);
          (split; [assumption | split; [assumption|]]);
          unfold upload_read, valid_upload; eauto 12).
Qed.

Lemma model_called_only_after_checks_witness :
  method (post "en") = "POST"
  /\ truthy (GEMINI_API_KEY sunny) = true
  /\ upload_read sunny (post "en").
Proof.
  apply (proj1 (model_called_only_after_checks sunny (post "en"))).
  vm_compute. discriminate.
Defined.

(** X11. Every call of the model names the model of the version and
    sends, as the first part, the bytes of a file read in that run under a
    type that starts with [image/]; only the current version asks for a
    JSON reply, with exactly two parts. *)
Theorem model_call_carries_image (w : world) (request : Request)
    (model : string) (req : GenerateRequest) :
  (In (EvGenerateContent model req) (log (Technical.handler w request)) ->
   model = "gemini-1.5-pro"
   /\ responseMimeType req = Some "application/json"
   /\ List.length (contents req) = 2
   /\ carries_image w (log (Technical.handler w request)) req)
  /\ (In (EvGenerateContent model req) (log (Fundamental.handler w request)) ->
      model = "gemini-2.5-pro"
      /\ responseMimeType req = None
      /\ carries_image w (log (Fundamental.handler w request)) req)
  /\ (In (EvGenerateContent model req) (log (Draft.handler w request)) ->
      model = "gemini-1.5-flash-latest"
      /\ responseMimeType req = None
      /\ carries_image w (log (Draft.handler w request)) req).
Proof.
  three_paths w request
    ltac:(let I := fresh "I" in
          intros I; in_trace I;
          repeat (split; [reflexivity|]);
          unfold carries_image;
          cbn [request_of technical fundamental draft contents
               fileToGenerativePart];
          unfold Fundamental.parts, Draft.parts;
          try match goal with
              | |- context [truthy ?n] => destruct (truthy n)
              end;
          eexists (filepath _), _, _, _;
          (split;
           [ reflexivity
           | split; [eassumption | split; [eassumption|]] ]);
          show_trace; auto 8).
Qed.

Lemma model_call_carries_image_witness :
  Technical.model = "gemini-1.5-pro"
  /\ responseMimeType sunny_request = Some "application/json"
  /\ List.length (contents sunny_request) = 2
  /\ carries_image sunny (log (Technical.handler sunny (post "en")))
       sunny_request.
Proof.
  apply (proj1 (model_call_carries_image sunny (post "en")
                  Technical.model sunny_request)).
  vm_compute. right. right. left. reflexivity.
Defined.

(** X15. The outside actions of a run happen at most once each and in
    one order: busboy set-up, body parse, file read, model call, reply log,
    error log. *)
Theorem actions_in_order (w : world) (request : Request) :
  increasing (map phase (log (Technical.handler w request))) = true
  /\ increasing (map phase (log (Fundamental.handler w request))) = true
  /\ increasing (map phase (log (Draft.handler w request))) = true.
Proof. three_paths w request ltac:(reflexivity). Qed.

(** ** What a run does not depend on *)

(** X16. Of the uploaded files only the first one under [image] is used:
    further images and other file fields change nothing. *)
Theorem only_first_image_used (w : world) (request : Request)
    (fields : Fields) (files : Files) (imageFile : File)
    (others : list File) :
  assoc_last "image" files = Some (imageFile :: others) ->
  let given := with_form w (Returns (fields, files)) in
  let alone := with_form w (Returns (fields, [("image", [imageFile])])) in
  run (Technical.handler given request) = run (Technical.handler alone request)
  /\ run (Fundamental.handler given request)
     = run (Fundamental.handler alone request)
  /\ run (Draft.handler given request) = run (Draft.handler alone request).
Proof.
  intros H given alone. subst given alone.
  repeat split; same_run; try rewrite H; reflexivity.
Qed.

Lemma only_first_image_used_witness :
  run (Technical.handler
         (with_form sunny (Returns (fst (upload_of "en" png), two_files)))
         (post "en"))
  = run (Technical.handler
           (with_form sunny
              (Returns (fst (upload_of "en" png), [("image", [png])])))
           (post "en")).
Proof.
  apply (proj1 (only_first_image_used sunny (post "en")
                  (fst (upload_of "en" png)) two_files png [pdf] eq_refl)).
Defined.

Lemma field_or_other (name : string) (values : list string)
    (fields : Fields) (k dflt : string) :
  name <> k ->
  field_or ((name, values) :: fields) k dflt = field_or fields k dflt.
Proof.
  intros H. unfold field_or. cbn [assoc_last].
  destruct (assoc_last k fields); [reflexivity|].
  assert (E : String.eqb k name = false) by (apply String.eqb_neq; congruence).
  now rewrite E.
Qed.

(** X17. A form field the version does not use changes nothing; the
    fundamental version does not use [timeframe], the draft does not use
    [outputLanguage]. *)
Theorem unread_field_ignored (w : world) (request : Request)
    (fields : Fields) (files : Files) (name : string)
    (values : list string) :
  let given := with_form w (Returns ((name, values) :: fields, files)) in
  let without := with_form w (Returns (fields, files)) in
  (~ In name ["assetType"; "timeframe"; "additionalNotes"; "outputLanguage"] ->
   run (Technical.handler given request)
   = run (Technical.handler without request))
  /\ (~ In name ["assetType"; "additionalNotes"; "outputLanguage"] ->
      run (Fundamental.handler given request)
      = run (Fundamental.handler without request))
  /\ (~ In name ["assetType"; "timeframe"; "additionalNotes"] ->
      run (Draft.handler given request)
      = run (Draft.handler without request)).
Proof.
  intros given without. subst given without.
  repeat split; intros H; same_run;
    rewrite ?field_or_other
      by (let E := fresh "E" in
          intros E; apply H; rewrite E; cbn [In]; auto 6);
    reflexivity.
Qed.

Lemma unread_field_ignored_witness :
  run (Fundamental.handler
         (with_form sunny
            (Returns (("timeframe", ["H4"]) :: fst (upload_of "en" png),
                      snd (upload_of "en" png))))
         (post "en"))
  = run (Fundamental.handler
           (with_form sunny (Returns (upload_of "en" png))) (post "en")).
Proof.
  apply (proj1 (proj2 (unread_field_ignored sunny (post "en")
                         (fst (upload_of "en" png)) (snd (upload_of "en" png))
                         "timeframe" ["H4"]))).
  intros [H|[H|[H|[]]]]; discriminate H.
Defined.

(** ** The language of the error message *)

(** X18. The lead of the error message is the Indonesian one exactly when
    the [accept-language] header holds [id] somewhere, as a language tag
    or not; it is the English one otherwise, also without the header. *)
Theorem error_lead_language (request : Request) (e : js_error) :
  (header_has_id request ->
   Technical.errorMessage request e
   = "Gagal menganalisis grafik. Detail kesalahan: " ++ message e
   /\ Fundamental.errorMessage request e
      = "Gagal menganalisis grafik. Detail kesalahan: " ++ message e)
  /\ (~ header_has_id request ->
      Technical.errorMessage request e
      = "Failed to analyze chart. Error details: " ++ message e
      /\ Fundamental.errorMessage request e
         = "Failed to analyze chart. Error details: " ++ message e).
Proof.
  unfold Technical.errorMessage, Fundamental.errorMessage.
  assert (H : accepts_id request = true <-> header_has_id request).
  { unfold accepts_id, header_has_id.
    destruct (assoc_last "accept-language" (headers request)) as [h|].
    - rewrite andb_true_iff, includes_spec. split.
      + intros [_ (a & b & ->)]. now exists (a ++ "id" ++ b), a, b.
      + intros (h' & a & b & [= <-] & ->). split; [|now exists a, b].
        destruct a; reflexivity.
    - split; [discriminate | now intros (h & a & b & [=] & _)]. }
  destruct (accepts_id request); split; intros Hh; try now split.
  - exfalso. apply Hh. now apply H.
  - apply H in Hh. discriminate Hh.
Qed.

Lemma error_lead_language_witness :
  Technical.errorMessage (post "id-ID") (mkError "fetch failed")
  = "Gagal menganalisis grafik. Detail kesalahan: fetch failed".
Proof.
  apply (proj1 (error_lead_language (post "id-ID") (mkError "fetch failed"))).
  exists "id-ID", EmptyString, "-ID". split; reflexivity.
Defined.

(** ** Failures inside the guarded block *)

Lemma accepts_id_header (request : Request) :
  accepts_id request = true <-> header_has_id request.
Proof.
  unfold accepts_id, header_has_id.
  destruct (assoc_last "accept-language" (headers request)) as [h|].
  - rewrite andb_true_iff, includes_spec. split.
    + intros [_ (a & b & ->)]. now exists (a ++ "id" ++ b), a, b.
    + intros (h' & a & b & [= <-] & ->). split; [|now exists a, b].
      destruct a; reflexivity.
  - split; [discriminate | now intros (h & a & b & [=] & _)].
Qed.

Lemma error_lead (request : Request) :
  exists lead,
    localized_lead request lead
    /\ forall e,
         Technical.errorMessage request e = lead ++ message e
         /\ Fundamental.errorMessage request e = lead ++ message e.
Proof.
  unfold Technical.errorMessage, Fundamental.errorMessage, localized_lead.
  destruct (accepts_id request) eqn:A.
  - eexists. split; [left; split; [now apply accepts_id_header | reflexivity]|].
    now split.
  - eexists. split; [right; split; [|reflexivity]|now split].
    intros H. apply accepts_id_header in H. congruence.
Qed.

(** C7. When something fails inside the guarded block of a POST request
    (the busboy set-up of the draft, the multipart parsing, the type check
    of a file without type, the reading of the file, the call of the model
    or the reading of its reply), the answer is 500 and its message is a
    lead followed by the text of the error; in the current and the
    fundamental version the lead is the Indonesian one when the
    [accept-language] header holds [id] somewhere and the English one
    otherwise; in the draft it is always the same. *)
Theorem failure_500 (w : world) (request : Request) (e : js_error) :
  method request = "POST" ->
  truthy (GEMINI_API_KEY w) = true ->
  (fails technical w request e ->
   exists lead,
     localized_lead request lead
     /\ sent (Technical.handler w request)
        = Returns (status_json 500 (message_body (lead ++ message e))))
  /\ (fails fundamental w request e ->
      exists lead,
        localized_lead request lead
        /\ sent (Fundamental.handler w request)
           = Returns (status_json 500 (message_body (lead ++ message e))))
  /\ (fails draft w request e ->
      sent (Draft.handler w request)
      = Returns
          (status_json 500
             (message_body
                ("Failed to analyze chart. Please check the image and try again. Error: "
                 ++ message e)))).
Proof.
  intros Hm Hk.
  destruct (error_lead request) as (lead & Hl & He).
  split; [|split]; intros Hf.
  - exists lead. split; [exact Hl|]. rewrite <- (proj1 (He e)).
    failure Hm Hk Hf; reflexivity.
  - exists lead. split; [exact Hl|]. rewrite <- (proj2 (He e)).
    failure Hm Hk Hf; reflexivity.
  - failure Hm Hk Hf; reflexivity.
Qed.

Lemma failure_500_witness :
  sent (Technical.handler
          (mock (Returns (upload_of "id" png)) (Returns "PNG")
             (Throws (mkError "fetch failed"))) (post "id-ID"))
  = Returns (status_json 500
               (message_body
                  ("Gagal menganalisis grafik. Detail kesalahan: "
                   ++ "fetch failed"))).
Proof.
  destruct (proj1 (failure_500
                     (mock (Returns (upload_of "id" png)) (Returns "PNG")
                        (Throws (mkError "fetch failed"))) (post "id-ID")
                     (mkError "fetch failed") eq_refl eq_refl)
              (fails_generate technical
                 (mock (Returns (upload_of "id" png)) (Returns "PNG")
                    (Throws (mkError "fetch failed"))) (post "id-ID")
                 (fst (upload_of "id" png)) (snd (upload_of "id" png))
                 png "PNG" (mkError "fetch failed")
                 (fun H => False_ind _ (Bool.diff_false_true H))
                 eq_refl
                 (upload_of_valid "id" png "image/png" eq_refl eq_refl)
                 eq_refl eq_refl))
    as (lead & [[_ ->]|[Hn _]] & Hs).
  - exact Hs.
  - exfalso. apply Hn. exists "id-ID", EmptyString, "-ID".
    split; reflexivity.
Defined.

(** The failures listed are all there are: a 500 sent while the credential
    is set comes from one of them. *)
Lemma every_500_fails (w : world) (request : Request) :
  truthy (GEMINI_API_KEY w) = true ->
  (status_of (sent (Technical.handler w request)) = Some 500 ->
   exists e, fails technical w request e)
  /\ (status_of (sent (Fundamental.handler w request)) = Some 500 ->
      exists e, fails fundamental w request e)
  /\ (status_of (sent (Draft.handler w request)) = Some 500 ->
      exists e, fails draft w request e).
Proof.
  intros Hkey.
  three_paths w request
    ltac:(let S := fresh "S" in
          intros S; try discriminate S; try congruence;
          repeat match goal with
            | T : mimetype ?f = Str ?t,
              G : context [request_of _ _ _ (Str ?t)] |- _ =>
                rewrite <- T in G
            end;
          repeat match goal with
            | H : _ \/ _ |- _ => destruct H
            end;
          try match goal with
              | I : assoc_last "image" ?fs = Some (?f :: _),
                T : mimetype ?f = Str _ |- _ =>
                  assert (valid_upload fs f) by (split; eauto)
              end;
          eexists;
          first [ solve [eapply fails_busboy; eauto]
                | solve [eapply fails_form_parse; eauto]
                | solve [eapply fails_null_type; eauto]
                | solve [eapply fails_undefined_type; eauto]
                | solve [eapply fails_read_file; eauto]
                | solve [eapply fails_generate; eauto]
                | solve [eapply fails_text; eauto] ]).
Qed.
